(** * Unity DX11 native rendering plugin: device lifecycle, resource
      creation and the per-frame render event

    Shallow embedding of [RenderingPlugin/RenderingPlugin.cpp].

    The plugin is a set of C globals mutated by a handful of exported entry
    points and two host callbacks.  The globals become one record [State];
    every function of the source becomes a computation in the monad [M],
    which threads the state, collects the calls made to the outside world
    (Direct3D calls and log lines) in the order the source issues them, and
    faults where the source would dereference a null pointer.

    Single precision numbers are kept behind the interface [FloatOps]: the
    source only uses literals, the four arithmetic operations, [sinf],
    [cosf], [sqrtf] and the two conversions from and to [int].

    The source is read with [SUPPORT_D3D11] defined, the one backend it has
    code for.  The host's interface pointers [s_UnityInterfaces] and
    [s_Graphics] are set once by [UnityPluginLoad], before the host can make
    any other call; what they give access to is the record [Host], handed to
    every function that asks the host or the machine for something. *)

From Stdlib Require Import ZArith QArith Reals Lra Lia String List.
From stdpp Require Import base list.
Import ListNotations.

Local Open Scope string_scope.
Local Open Scope list_scope.
Local Open Scope Z_scope.

(** ** Single precision arithmetic *)

Class FloatOps (F : Type) : Type := {
  f_lit    : Q -> F;            (* a decimal literal such as [0.7f] *)
  f_of_int : Z -> F;            (* conversion [int -> float] *)
  f_to_int : F -> Z;            (* conversion [float -> int], truncating *)
  f_neg    : F -> F;
  f_add    : F -> F -> F;
  f_sub    : F -> F -> F;
  f_mul    : F -> F -> F;
  f_div    : F -> F -> F;
  sinf     : F -> F;
  cosf     : F -> F;
  sqrtf    : F -> F
}.

(** The real-number reading of the interface: every operation is the exact
    one, the conversion to [int] truncates toward zero. *)
Definition R_trunc (r : R) : Z :=
  if Rle_dec 0 r then (up r - 1)%Z else (- (up (- r) - 1))%Z.

#[global] Instance R_FloatOps : FloatOps R := {|
  f_lit    := Q2R;
  f_of_int := IZR;
  f_to_int := R_trunc;
  f_neg    := Ropp;
  f_add    := Rplus;
  f_sub    := Rminus;
  f_mul    := Rmult;
  f_div    := Rdiv;
  sinf     := sin;
  cosf     := cos;
  sqrtf    := sqrt
|}.

(** ** Host enumerations

    [Unity/IUnityGraphics.h] is not among the sources of the repository. *)

(** Modelled from the spec: the header declaring [UnityGfxRenderer] is
    missing; the spec's BackendKind is "{None, BackendA, ...}".  The source
    tests only [kUnityGfxRendererNull] and [kUnityGfxRendererD3D11]; every
    other renderer of the host is [kUnityGfxRendererOther]. *)
Inductive UnityGfxRenderer : Type :=
| kUnityGfxRendererNull
| kUnityGfxRendererD3D11
| kUnityGfxRendererOther (id : Z).

(** Modelled from the spec: the header declaring [UnityGfxDeviceEventType]
    is missing; the spec's device lifecycle events are Initialize, Shutdown,
    BeforeReset and AfterReset, the four cases of the source's [switch]. *)
Inductive UnityGfxDeviceEventType : Type :=
| kUnityGfxDeviceEventInitialize
| kUnityGfxDeviceEventShutdown
| kUnityGfxDeviceEventBeforeReset
| kUnityGfxDeviceEventAfterReset.

Definition is_D3D11 (r : UnityGfxRenderer) : bool :=
  match r with kUnityGfxRendererD3D11 => true | _ => false end.

Definition is_Null (r : UnityGfxRenderer) : bool :=
  match r with kUnityGfxRendererNull => true | _ => false end.

(** ** Handles, the outside world and the plugin's globals *)

(** A COM object or a native texture; a pointer is [option handle], with
    [None] for [NULL]. *)
Definition handle := positive.
Definition ptr := option handle.

Definition Buffer := list Z.      (* std::vector<unsigned char> *)

Inductive ResKind : Type :=
| VertexBuffer | ConstantBuffer | VertexShader | PixelShader
| InputLayout | RasterizerState | DepthStencilState | BlendState.

(** What the host and the machine offer at the time of one call: the
    renderer and the device of the graphics interface, the files that can be
    opened, whether the device accepts a creation request, and the
    description of a texture. *)
Record Host : Type := {
  GetRenderer    : UnityGfxRenderer;
  GetDevice      : handle;
  fopen          : string -> option Buffer;
  device_creates : ResKind -> Buffer -> bool;
  GetDesc        : handle -> Z * Z            (* Width, Height *)
}.

Record D3D11Resources : Type := {
  g_D3D11VB           : ptr;
  g_D3D11CB           : ptr;
  g_D3D11VertexShader : ptr;
  g_D3D11PixelShader  : ptr;
  g_D3D11InputLayout  : ptr;
  g_D3D11RasterState  : ptr;
  g_D3D11BlendState   : ptr;
  g_D3D11DepthState   : ptr
}.

Definition no_resources : D3D11Resources :=
  {| g_D3D11VB := None; g_D3D11CB := None; g_D3D11VertexShader := None;
     g_D3D11PixelShader := None; g_D3D11InputLayout := None;
     g_D3D11RasterState := None; g_D3D11BlendState := None;
     g_D3D11DepthState := None |}.

Section Plugin.

Context {F : Type} {FO : FloatOps F}.

(** [struct MyVertex { float x, y, z; unsigned int color; }]. *)
Record MyVertex : Type := { vx : F; vy : F; vz : F; color : Z }.

(** The globals of the source, and [next_handle], the next object the
    device hands out (every object created is a new one). *)
Record State : Type := {
  g_Time                     : F;
  s_UnityStreamingAssetsPath : string;
  s_DeviceType               : UnityGfxRenderer;
  g_TexturePointer           : ptr;
  g_D3D11Device              : ptr;
  resources                  : D3D11Resources;
  next_handle                : handle
}.

(** Static storage is zero-initialised. *)
Definition initial_state : State :=
  {| g_Time := f_of_int 0;
     s_UnityStreamingAssetsPath := "";
     s_DeviceType := kUnityGfxRendererNull;
     g_TexturePointer := None;
     g_D3D11Device := None;
     resources := no_resources;
     next_handle := 1%positive |}.

(** ** Calls made to the outside world *)

Inductive Payload : Type :=
| WorldMatrix (m : list F)
| Vertices (vs : list MyVertex)
| Pixels (data : list Z).

(** One constructor per Direct3D call of the source, plus the log line.
    A creation call records the object it returned ([None] when it failed). *)
Inductive Event : Type :=
| EvLog (str : string)
| EvCreateBuffer (ByteWidth : Z) (bind : ResKind) (out : ptr)
| EvCreateVertexShader (bytecode : Buffer) (out : ptr)
| EvCreatePixelShader (bytecode : Buffer) (out : ptr)
| EvCreateInputLayout (NumElements : Z) (bytecode : Buffer) (out : ptr)
| EvCreateRasterizerState (out : ptr)
| EvCreateDepthStencilState (out : ptr)
| EvCreateBlendState (out : ptr)
| EvRelease (a : handle)
| EvGetImmediateContext (dev : handle)
| EvContextRelease
| EvOMSetDepthStencilState (s : ptr)
| EvRSSetState (s : ptr)
| EvOMSetBlendState (s : ptr)
| EvUpdateSubresource (dst : ptr) (data : Payload) (SrcRowPitch : Z)
| EvVSSetConstantBuffers (cb : ptr)
| EvVSSetShader (s : ptr)
| EvPSSetShader (s : ptr)
| EvIASetInputLayout (l : ptr)
| EvIASetPrimitiveTopology_TRIANGLELIST
| EvIASetVertexBuffers (vb : ptr) (stride offset : Z)
| EvDraw (VertexCount StartVertexLocation : Z)
| EvTextureGetDesc (tex : handle).

(** ** The monad of the plugin: state, emitted calls, null dereference *)

Definition M (A : Type) : Type := State -> option (A * State * list Event).

#[global] Instance M_ret : MRet M := fun A a st => Some (a, st, []).

#[global] Instance M_bind : MBind M := fun A B f m st =>
  match m st with
  | None => None
  | Some (a, st1, e1) =>
      match f a st1 with
      | None => None
      | Some (b, st2, e2) => Some (b, st2, e1 ++ e2)
      end
  end.

Definition gets {A : Type} (f : State -> A) : M A :=
  fun st => Some (f st, st, []).
Definition modify (f : State -> State) : M unit :=
  fun st => Some (tt, f st, []).
Definition emit (e : Event) : M unit :=
  fun st => Some (tt, st, [e]).

(** Assignments to the globals. *)
Definition set_Time (t : F) (st : State) : State :=
  {| g_Time := t;
     s_UnityStreamingAssetsPath := s_UnityStreamingAssetsPath st;
     s_DeviceType := s_DeviceType st;
     g_TexturePointer := g_TexturePointer st;
     g_D3D11Device := g_D3D11Device st;
     resources := resources st;
     next_handle := next_handle st |}.

Definition set_Path (p : string) (st : State) : State :=
  {| g_Time := g_Time st;
     s_UnityStreamingAssetsPath := p;
     s_DeviceType := s_DeviceType st;
     g_TexturePointer := g_TexturePointer st;
     g_D3D11Device := g_D3D11Device st;
     resources := resources st;
     next_handle := next_handle st |}.

Definition set_DeviceType (r : UnityGfxRenderer) (st : State) : State :=
  {| g_Time := g_Time st;
     s_UnityStreamingAssetsPath := s_UnityStreamingAssetsPath st;
     s_DeviceType := r;
     g_TexturePointer := g_TexturePointer st;
     g_D3D11Device := g_D3D11Device st;
     resources := resources st;
     next_handle := next_handle st |}.

Definition set_TexturePointer (p : ptr) (st : State) : State :=
  {| g_Time := g_Time st;
     s_UnityStreamingAssetsPath := s_UnityStreamingAssetsPath st;
     s_DeviceType := s_DeviceType st;
     g_TexturePointer := p;
     g_D3D11Device := g_D3D11Device st;
     resources := resources st;
     next_handle := next_handle st |}.

Definition set_Device (p : ptr) (st : State) : State :=
  {| g_Time := g_Time st;
     s_UnityStreamingAssetsPath := s_UnityStreamingAssetsPath st;
     s_DeviceType := s_DeviceType st;
     g_TexturePointer := g_TexturePointer st;
     g_D3D11Device := p;
     resources := resources st;
     next_handle := next_handle st |}.

Definition set_resources (r : D3D11Resources) (st : State) : State :=
  {| g_Time := g_Time st;
     s_UnityStreamingAssetsPath := s_UnityStreamingAssetsPath st;
     s_DeviceType := s_DeviceType st;
     g_TexturePointer := g_TexturePointer st;
     g_D3D11Device := g_D3D11Device st;
     resources := r;
     next_handle := next_handle st |}.

Definition set_next_handle (n : handle) (st : State) : State :=
  {| g_Time := g_Time st;
     s_UnityStreamingAssetsPath := s_UnityStreamingAssetsPath st;
     s_DeviceType := s_DeviceType st;
     g_TexturePointer := g_TexturePointer st;
     g_D3D11Device := g_D3D11Device st;
     resources := resources st;
     next_handle := n |}.

Definition set_VB (p : ptr) (r : D3D11Resources) : D3D11Resources :=
  {| g_D3D11VB := p; g_D3D11CB := g_D3D11CB r;
     g_D3D11VertexShader := g_D3D11VertexShader r;
     g_D3D11PixelShader := g_D3D11PixelShader r;
     g_D3D11InputLayout := g_D3D11InputLayout r;
     g_D3D11RasterState := g_D3D11RasterState r;
     g_D3D11BlendState := g_D3D11BlendState r;
     g_D3D11DepthState := g_D3D11DepthState r |}.

Definition set_CB (p : ptr) (r : D3D11Resources) : D3D11Resources :=
  {| g_D3D11VB := g_D3D11VB r; g_D3D11CB := p;
     g_D3D11VertexShader := g_D3D11VertexShader r;
     g_D3D11PixelShader := g_D3D11PixelShader r;
     g_D3D11InputLayout := g_D3D11InputLayout r;
     g_D3D11RasterState := g_D3D11RasterState r;
     g_D3D11BlendState := g_D3D11BlendState r;
     g_D3D11DepthState := g_D3D11DepthState r |}.

Definition set_VertexShader (p : ptr) (r : D3D11Resources) : D3D11Resources :=
  {| g_D3D11VB := g_D3D11VB r; g_D3D11CB := g_D3D11CB r;
     g_D3D11VertexShader := p;
     g_D3D11PixelShader := g_D3D11PixelShader r;
     g_D3D11InputLayout := g_D3D11InputLayout r;
     g_D3D11RasterState := g_D3D11RasterState r;
     g_D3D11BlendState := g_D3D11BlendState r;
     g_D3D11DepthState := g_D3D11DepthState r |}.

Definition set_PixelShader (p : ptr) (r : D3D11Resources) : D3D11Resources :=
  {| g_D3D11VB := g_D3D11VB r; g_D3D11CB := g_D3D11CB r;
     g_D3D11VertexShader := g_D3D11VertexShader r;
     g_D3D11PixelShader := p;
     g_D3D11InputLayout := g_D3D11InputLayout r;
     g_D3D11RasterState := g_D3D11RasterState r;
     g_D3D11BlendState := g_D3D11BlendState r;
     g_D3D11DepthState := g_D3D11DepthState r |}.

Definition set_InputLayout (p : ptr) (r : D3D11Resources) : D3D11Resources :=
  {| g_D3D11VB := g_D3D11VB r; g_D3D11CB := g_D3D11CB r;
     g_D3D11VertexShader := g_D3D11VertexShader r;
     g_D3D11PixelShader := g_D3D11PixelShader r;
     g_D3D11InputLayout := p;
     g_D3D11RasterState := g_D3D11RasterState r;
     g_D3D11BlendState := g_D3D11BlendState r;
     g_D3D11DepthState := g_D3D11DepthState r |}.

Definition set_RasterState (p : ptr) (r : D3D11Resources) : D3D11Resources :=
  {| g_D3D11VB := g_D3D11VB r; g_D3D11CB := g_D3D11CB r;
     g_D3D11VertexShader := g_D3D11VertexShader r;
     g_D3D11PixelShader := g_D3D11PixelShader r;
     g_D3D11InputLayout := g_D3D11InputLayout r;
     g_D3D11RasterState := p;
     g_D3D11BlendState := g_D3D11BlendState r;
     g_D3D11DepthState := g_D3D11DepthState r |}.

Definition set_BlendState (p : ptr) (r : D3D11Resources) : D3D11Resources :=
  {| g_D3D11VB := g_D3D11VB r; g_D3D11CB := g_D3D11CB r;
     g_D3D11VertexShader := g_D3D11VertexShader r;
     g_D3D11PixelShader := g_D3D11PixelShader r;
     g_D3D11InputLayout := g_D3D11InputLayout r;
     g_D3D11RasterState := g_D3D11RasterState r;
     g_D3D11BlendState := p;
     g_D3D11DepthState := g_D3D11DepthState r |}.

Definition set_DepthState (p : ptr) (r : D3D11Resources) : D3D11Resources :=
  {| g_D3D11VB := g_D3D11VB r; g_D3D11CB := g_D3D11CB r;
     g_D3D11VertexShader := g_D3D11VertexShader r;
     g_D3D11PixelShader := g_D3D11PixelShader r;
     g_D3D11InputLayout := g_D3D11InputLayout r;
     g_D3D11RasterState := g_D3D11RasterState r;
     g_D3D11BlendState := g_D3D11BlendState r;
     g_D3D11DepthState := p |}.

(** [g_X = p] for one of the eight resource globals. *)
Definition assign (set : ptr -> D3D11Resources -> D3D11Resources) (p : ptr)
  : M unit :=
  modify (fun st => set_resources (set p (resources st)) st).

(** ** Helper utilities *)

Definition nl : string := String (Ascii.ascii_of_nat 10) EmptyString.

(** [OutputDebugStringA] or [printf]: either way one line for the log. *)
Definition DebugLog (str : string) : M unit := emit (EvLog str).

(** [SAFE_RELEASE(a)]: [if (a) { a->Release(); a = NULL; }]. *)
Definition SAFE_RELEASE (get : D3D11Resources -> ptr)
    (set : ptr -> D3D11Resources -> D3D11Resources) : M unit :=
  a ← gets (fun st => get (resources st));
  match a with
  | Some o => emit (EvRelease o);; assign set None
  | None => mret tt
  end.

(** ** Exported setters *)

Definition SetTimeFromUnity (t : F) : M unit := modify (set_Time t).

Definition SetUnityStreamingAssetsPath (path : string) : M unit :=
  modify (set_Path path).

Definition SetTextureFromUnity (texturePtr : ptr) : M unit :=
  modify (set_TexturePointer texturePtr).

(** ** Shared code *)

(** The file is read whole into [data]; when it cannot be opened [data] is
    left as it was and the failure is logged. *)
Definition LoadFileIntoBuffer (h : Host) (fileName : string) (data : Buffer)
  : M (bool * Buffer) :=
  match fopen h fileName with
  | Some contents => mret (true, contents)
  | None =>
      DebugLog ("Failed to find " ++ fileName)%string;; mret (false, data)
  end.

(** ** Direct3D 11 setup and teardown *)

(** [g_D3D11Device->...]: the device pointer is dereferenced; a null
    pointer is a fault. *)
Definition device : M handle :=
  fun st => match g_D3D11Device st with
            | Some d => Some (d, st, [])
            | None => None
            end.

(** The next object of the device after a request that was accepted or
    not. *)
Definition next_after (ok : bool) (a : handle) : handle :=
  if ok then Pos.succ a else a.

(** One [g_D3D11Device->CreateX (..., &out)]: when the device accepts the
    request it hands out its next object, otherwise [out] is null and no
    object is made; [FAILED(hr)] holds exactly in the second case. *)
Definition d3d_create (h : Host) (k : ResKind) (code : Buffer)
    (call : ptr -> Event) : M ptr :=
  _ ← device;
  a ← gets next_handle;
  let ok := device_creates h k code in
  modify (set_next_handle (next_after ok a));;
  let out := if ok then Some a else None in
  emit (call out);;
  mret out.

Definition nonempty (b : Buffer) : bool := (0 <? length b)%nat.

(** The two file names built from the streaming assets path. *)
Definition vertexShaderPath (path : string) : string :=
  (path ++ "/Shaders/DX11_9_1/SimpleVertexShader.cso")%string.
Definition fragmentShaderPath (path : string) : string :=
  (path ++ "/Shaders/DX11_9_1/SimplePixelShader.cso")%string.

Definition EnsureD3D11ResourcesAreCreated (h : Host) : M bool :=
  vs ← gets (fun st => g_D3D11VertexShader (resources st));
  if vs is Some _ then mret true else
  path ← gets s_UnityStreamingAssetsPath;
  if String.eqb path "" then mret false else
  (* vertex buffer *)
  vb ← d3d_create h VertexBuffer [] (EvCreateBuffer 1024 VertexBuffer);
  assign set_VB vb;;
  (* constant buffer *)
  cb ← d3d_create h ConstantBuffer [] (EvCreateBuffer 64 ConstantBuffer);
  assign set_CB cb;;
  lv ← LoadFileIntoBuffer h (vertexShaderPath path) [];
  lp ← LoadFileIntoBuffer h (fragmentShaderPath path) [];
  let vertexShader := snd lv in
  let pixelShader := snd lp in
  (if nonempty vertexShader && nonempty pixelShader then
     v ← d3d_create h VertexShader vertexShader
           (EvCreateVertexShader vertexShader);
     assign set_VertexShader v;;
     (if v is None
      then DebugLog ("Failed to create vertex shader." ++ nl)%string
      else mret tt);;
     p ← d3d_create h PixelShader pixelShader
           (EvCreatePixelShader pixelShader);
     assign set_PixelShader p;;
     (if p is None
      then DebugLog ("Failed to create pixel shader." ++ nl)%string
      else mret tt)
   else
     DebugLog ("Failed to load vertex or pixel shader." ++ nl)%string);;
  (* input layout *)
  vs' ← gets (fun st => g_D3D11VertexShader (resources st));
  (if vs' is Some _ then
     if nonempty vertexShader then
       il ← d3d_create h InputLayout vertexShader
              (EvCreateInputLayout 2 vertexShader);
       assign set_InputLayout il
     else mret tt
   else mret tt);;
  (* render states *)
  rs ← d3d_create h RasterizerState [] EvCreateRasterizerState;
  assign set_RasterState rs;;
  ds ← d3d_create h DepthStencilState [] EvCreateDepthStencilState;
  assign set_DepthState ds;;
  bs ← d3d_create h BlendState [] EvCreateBlendState;
  assign set_BlendState bs;;
  mret true.

Definition ReleaseD3D11Resources : M unit :=
  SAFE_RELEASE g_D3D11VB set_VB;;
  SAFE_RELEASE g_D3D11CB set_CB;;
  SAFE_RELEASE g_D3D11VertexShader set_VertexShader;;
  SAFE_RELEASE g_D3D11PixelShader set_PixelShader;;
  SAFE_RELEASE g_D3D11InputLayout set_InputLayout;;
  SAFE_RELEASE g_D3D11RasterState set_RasterState;;
  SAFE_RELEASE g_D3D11BlendState set_BlendState;;
  SAFE_RELEASE g_D3D11DepthState set_DepthState.

Definition DoEventGraphicsDeviceD3D11 (h : Host)
    (eventType : UnityGfxDeviceEventType) : M unit :=
  match eventType with
  | kUnityGfxDeviceEventInitialize =>
      modify (set_Device (Some (GetDevice h)));;
      _ ← EnsureD3D11ResourcesAreCreated h;
      mret tt
  | kUnityGfxDeviceEventShutdown => ReleaseD3D11Resources
  | _ => mret tt
  end.

(** ** GraphicsDeviceEvent *)

Definition OnGraphicsDeviceEvent (h : Host)
    (eventType : UnityGfxDeviceEventType) : M unit :=
  currentDeviceType ← gets s_DeviceType;
  currentDeviceType ←
    match eventType with
    | kUnityGfxDeviceEventInitialize =>
        DebugLog ("OnGraphicsDeviceEvent(Initialize)." ++ nl)%string;;
        modify (set_DeviceType (GetRenderer h));;
        gets s_DeviceType
    | kUnityGfxDeviceEventShutdown =>
        DebugLog ("OnGraphicsDeviceEvent(Shutdown)." ++ nl)%string;;
        modify (set_DeviceType kUnityGfxRendererNull);;
        modify (set_TexturePointer None);;
        mret currentDeviceType
    | kUnityGfxDeviceEventBeforeReset =>
        DebugLog ("OnGraphicsDeviceEvent(BeforeReset)." ++ nl)%string;;
        mret currentDeviceType
    | kUnityGfxDeviceEventAfterReset =>
        DebugLog ("OnGraphicsDeviceEvent(AfterReset)." ++ nl)%string;;
        mret currentDeviceType
    end;
  if is_D3D11 currentDeviceType then DoEventGraphicsDeviceD3D11 h eventType
  else mret tt.

(** [UnityPluginLoad] registers the callback with the host and runs the
    Initialize event by hand; [UnityPluginUnload] only unregisters. *)
Definition UnityPluginLoad (h : Host) : M unit :=
  OnGraphicsDeviceEvent h kUnityGfxDeviceEventInitialize.

Definition UnityPluginUnload : M unit := mret tt.

(** ** SetDefaultGraphicsState *)

Definition SetDefaultGraphicsState : M unit :=
  dt ← gets s_DeviceType;
  if is_D3D11 dt then
    d ← device;
    emit (EvGetImmediateContext d);;
    ds ← gets (fun st => g_D3D11DepthState (resources st));
    emit (EvOMSetDepthStencilState ds);;
    rs ← gets (fun st => g_D3D11RasterState (resources st));
    emit (EvRSSetState rs);;
    bs ← gets (fun st => g_D3D11BlendState (resources st));
    emit (EvOMSetBlendState bs);;
    emit EvContextRelease
  else mret tt.

(** ** FillTextureFromCode *)

Notation "a +. b" := (f_add a b) (at level 50, left associativity).
Notation "a -. b" := (f_sub a b) (at level 50, left associativity).
Notation "a *. b" := (f_mul a b) (at level 40, left associativity).
Notation "a /. b" := (f_div a b) (at level 40, left associativity).

(** The value [vv] of pixel [(x, y)]: four sine waves, each moved into
    [0, 254], summed, converted to [int] and divided by four.  The products
    [x*x] and [y*y] stay within [int] for textures below 32768 pixels a
    side. *)
Definition plasma (x y : Z) (t : F) : Z :=
  Z.quot
    (f_to_int
       ((f_lit 127 +. (f_lit 127 *. sinf (f_of_int x /. f_lit 7 +. t))) +.
        (f_lit 127 +. (f_lit 127 *. sinf (f_of_int y /. f_lit 5 -. t))) +.
        (f_lit 127 +.
           (f_lit 127 *. sinf (f_of_int (x + y) /. f_lit 6 -. t))) +.
        (f_lit 127 +.
           (f_lit 127 *.
              sinf (sqrtf (f_of_int (x * x + y * y)) /. f_lit 4 -. t)))))
    4.

(** [p[i] = v] on a byte buffer addressed from its start: the [int] is
    converted to [unsigned char].  A store outside the buffer is undefined
    in the source; here it leaves the buffer as it is. *)
Definition store (mem : list Z) (off : Z) (v : Z) : list Z :=
  if 0 <=? off then <[Z.to_nat off := v mod 256]> mem else mem.

(** The inner loop, [n] pixels left, the next one at column [x] and at
    offset [p] of the buffer. *)
Fixpoint fill_row (n : nat) (x y : Z) (t : F) (p : Z) (mem : list Z)
  : list Z :=
  match n with
  | O => mem
  | S n' =>
      let vv := plasma x y t in
      let mem := store mem (p + 0) vv in
      let mem := store mem (p + 1) vv in
      let mem := store mem (p + 2) vv in
      let mem := store mem (p + 3) vv in
      fill_row n' (x + 1) y t (p + 4) mem
  end.

(** The outer loop, [n] rows left, the next one being row [y], starting at
    offset [dst]. *)
Fixpoint fill_rows (n : nat) (y : Z) (width stride : Z) (t : F) (dst : Z)
    (mem : list Z) : list Z :=
  match n with
  | O => mem
  | S n' =>
      let mem := fill_row (Z.to_nat width) 0 y t dst mem in
      fill_rows n' (y + 1) width stride t (dst + stride) mem
  end.

(** The source reads the global [g_Time]; it is the first argument here. *)
Definition FillTextureFromCode (time : F) (width height stride : Z)
    (dst : list Z) : list Z :=
  let t := time *. f_lit 4 in
  fill_rows (Z.to_nat height) 0 width stride t 0 dst.

(** The picture as the specification words it: for every pixel one value,
    the plasma of its coordinates and of the time, in each of the four
    channels; rows from top to bottom, pixels from left to right. *)
Definition plasma_pixel (x y : Z) (t : F) : list Z :=
  replicate 4 (plasma x y t mod 256).

Definition plasma_row (y : Z) (width : Z) (t : F) : list Z :=
  flat_map (fun x => plasma_pixel x y t) (seqZ 0 width).

Definition plasma_image (time : F) (width height : Z) : list Z :=
  flat_map (fun y => plasma_row y width (time *. f_lit 4)) (seqZ 0 height).

(** ** DoRendering *)

(** [new unsigned char[n]]: the contents are indeterminate in the source and
    zero here; [FillTextureFromCode_overwrites] shows that they do not
    matter. *)
Definition new_bytes (n : Z) : list Z := replicate (Z.to_nat n) 0.

Definition DoRendering (h : Host) (worldMatrix identityMatrix
    projectionMatrix : list F) (verts : list MyVertex) : M unit :=
  dt ← gets s_DeviceType;
  (* [s_DeviceType == kUnityGfxRendererD3D11 && Ensure...()] *)
  ready ← (if is_D3D11 dt return M bool
           then EnsureD3D11ResourcesAreCreated h else mret false);
  if (ready : bool) then
    d ← device;
    emit (EvGetImmediateContext d);;
    (* update constant buffer - just the world matrix *)
    cb ← gets (fun st => g_D3D11CB (resources st));
    emit (EvUpdateSubresource cb (WorldMatrix worldMatrix) 64);;
    (* set shaders *)
    emit (EvVSSetConstantBuffers cb);;
    vs ← gets (fun st => g_D3D11VertexShader (resources st));
    emit (EvVSSetShader vs);;
    ps ← gets (fun st => g_D3D11PixelShader (resources st));
    emit (EvPSSetShader ps);;
    (* update vertex buffer *)
    vb ← gets (fun st => g_D3D11VB (resources st));
    emit (EvUpdateSubresource vb (Vertices verts) (16 * 3));;
    (* set input assembler data and draw *)
    il ← gets (fun st => g_D3D11InputLayout (resources st));
    emit (EvIASetInputLayout il);;
    emit EvIASetPrimitiveTopology_TRIANGLELIST;;
    emit (EvIASetVertexBuffers vb 16 0);;
    emit (EvDraw 3 0);;
    (* update native texture from code *)
    tp ← gets g_TexturePointer;
    match tp return M unit with
    | Some d3dtex =>
        emit (EvTextureGetDesc d3dtex);;
        let Width := fst (GetDesc h d3dtex) in
        let Height := snd (GetDesc h d3dtex) in
        let data := new_bytes (Width * Height * 4) in
        time ← gets g_Time;
        let data := FillTextureFromCode time Width Height (Width * 4) data in
        emit (EvUpdateSubresource (Some d3dtex) (Pixels data) (Width * 4))
    | None => mret tt
    end;;
    emit EvContextRelease
  else mret tt.

(** ** OnRenderEvent *)

Definition verts : list MyVertex :=
  [ {| vx := f_neg (f_lit 0.5); vy := f_neg (f_lit 0.25); vz := f_of_int 0;
       color := 0xFFff0000 |};
    {| vx := f_lit 0.5; vy := f_neg (f_lit 0.25); vz := f_of_int 0;
       color := 0xFF00ff00 |};
    {| vx := f_of_int 0; vy := f_lit 0.5; vz := f_of_int 0;
       color := 0xFF0000ff |} ].

(** The local array [worldMatrix], as a function of the value of [g_Time]
    it is built from. *)
Definition worldMatrix (time : F) : list F :=
  let phi := time in
  let cosPhi := cosf phi in
  let sinPhi := sinf phi in
  [ cosPhi; f_neg sinPhi; f_of_int 0; f_of_int 0;
    sinPhi; cosPhi; f_of_int 0; f_of_int 0;
    f_of_int 0; f_of_int 0; f_of_int 1; f_of_int 0;
    f_of_int 0; f_of_int 0; f_lit 0.7; f_of_int 1 ].

Definition identityMatrix : list F :=
  [ f_of_int 1; f_of_int 0; f_of_int 0; f_of_int 0;
    f_of_int 0; f_of_int 1; f_of_int 0; f_of_int 0;
    f_of_int 0; f_of_int 0; f_of_int 1; f_of_int 0;
    f_of_int 0; f_of_int 0; f_of_int 0; f_of_int 1 ].

Definition projectionMatrix : list F := identityMatrix.

Definition OnRenderEvent (h : Host) (eventID : Z) : M unit :=
  dt ← gets s_DeviceType;
  (* Unknown graphics device type? Do nothing. *)
  if is_Null dt then mret tt else
  time ← gets g_Time;
  SetDefaultGraphicsState;;
  DoRendering h (worldMatrix time) identityMatrix projectionMatrix verts.

(** [EnsureD3D11ResourcesAreCreated] called once per host of the list, one
    call after the other; the answers in order. *)
Fixpoint ensure_each (hs : list Host) : M (list bool) :=
  match hs with
  | [] => mret []
  | h :: hs' =>
      b ← EnsureD3D11ResourcesAreCreated h;
      bs ← ensure_each hs';
      mret (b :: bs)
  end.

(** [GetRenderEventFunc] hands [OnRenderEvent] to the host. *)
Definition GetRenderEventFunc : Host -> Z -> M unit := OnRenderEvent.

(** ** The host driving the plugin *)

Inductive Call : Type :=
| CallSetTime (t : F)
| CallSetPath (path : string)
| CallSetTexture (texturePtr : ptr)
| CallPluginLoad
| CallPluginUnload
| CallDeviceEvent (eventType : UnityGfxDeviceEventType)
| CallRenderEvent (eventID : Z).

Definition call (h : Host) (c : Call) : M unit :=
  match c with
  | CallSetTime t => SetTimeFromUnity t
  | CallSetPath path => SetUnityStreamingAssetsPath path
  | CallSetTexture p => SetTextureFromUnity p
  | CallPluginLoad => UnityPluginLoad h
  | CallPluginUnload => UnityPluginUnload
  | CallDeviceEvent e => OnGraphicsDeviceEvent h e
  | CallRenderEvent e => OnRenderEvent h e
  end.

(** A script is what the host does, call after call, each with the world
    as it is at that time. *)
Fixpoint run (script : list (Host * Call)) : M unit :=
  match script with
  | [] => mret tt
  | (h, c) :: rest => call h c;; run rest
  end.

End Plugin.

Arguments State F : clear implicits.
Arguments MyVertex F : clear implicits.
Arguments Payload F : clear implicits.
Arguments Event F : clear implicits.
Arguments Call F : clear implicits.
Arguments M F A : clear implicits.

(** ** Vocabulary of the statements *)

(** What [LoadFileIntoBuffer] leaves in a buffer that was empty. *)
Definition shader_bytes (h : Host) (fileName : string) : Buffer :=
  match fopen h fileName with Some contents => contents | None => [] end.

(** Both shader files can be opened and are not empty. *)
Definition shader_files_loaded (h : Host) (path : string) : bool :=
  nonempty (shader_bytes h (vertexShaderPath path)) &&
  nonempty (shader_bytes h (fragmentShaderPath path)).

(** The files load and the device makes a vertex shader of the first. *)
Definition shaders_loadable (h : Host) (path : string) : bool :=
  shader_files_loaded h path &&
  device_creates h VertexShader (shader_bytes h (vertexShaderPath path)).

Section Vocabulary.

Context {F : Type}.

(** The member of the resource set a creation call asks for. *)
Definition creation_call (e : Event F) : option ResKind :=
  match e with
  | EvCreateBuffer _ k _ => Some k
  | EvCreateVertexShader _ _ => Some VertexShader
  | EvCreatePixelShader _ _ => Some PixelShader
  | EvCreateInputLayout _ _ _ => Some InputLayout
  | EvCreateRasterizerState _ => Some RasterizerState
  | EvCreateDepthStencilState _ => Some DepthStencilState
  | EvCreateBlendState _ => Some BlendState
  | _ => None
  end.

(** The eight members of the resource set, in the order the source
    creates them. *)
Definition all_kinds : list ResKind :=
  [VertexBuffer; ConstantBuffer; VertexShader; PixelShader; InputLayout;
   RasterizerState; DepthStencilState; BlendState].

(** The object a creation call made, if it made one. *)
Definition created_object (e : Event F) : option handle :=
  match e with
  | EvCreateBuffer _ _ out
  | EvCreateVertexShader _ out
  | EvCreatePixelShader _ out
  | EvCreateInputLayout _ _ out
  | EvCreateRasterizerState out
  | EvCreateDepthStencilState out
  | EvCreateBlendState out => out
  | _ => None
  end.

Definition released_object (e : Event F) : option handle :=
  match e with EvRelease a => Some a | _ => None end.

Definition create_count (evs : list (Event F)) : nat :=
  length (omap created_object evs).
Definition release_count (evs : list (Event F)) : nat :=
  length (omap released_object evs).

(** How many objects a run created and how many it released. *)
Definition create_release_counts
    (r : option (unit * State F * list (Event F))) : option (nat * nat) :=
  match r with
  | Some (_, _, evs) => Some (create_count evs, release_count evs)
  | None => None
  end.

(** Calls of the texture fill step: reading the description of the texture
    and uploading pixels. *)
Definition is_texture_event (e : Event F) : bool :=
  match e with
  | EvTextureGetDesc _ => true
  | EvUpdateSubresource _ (Pixels _) _ => true
  | _ => false
  end.

Definition live (p : ptr) : list handle :=
  match p with Some a => [a] | None => [] end.

(** The objects a resource set holds, in the order they are released. *)
Definition held (r : D3D11Resources) : list handle :=
  live (g_D3D11VB r) ++ live (g_D3D11CB r) ++ live (g_D3D11VertexShader r) ++
  live (g_D3D11PixelShader r) ++ live (g_D3D11InputLayout r) ++
  live (g_D3D11RasterState r) ++ live (g_D3D11BlendState r) ++
  live (g_D3D11DepthState r).

(** The invariant of the plugin under a host whose renderer is [r]: the
    backend is unset or the host's, the device is known while the backend is
    Direct3D 11, and resources are held only then. *)
Record wf (r : UnityGfxRenderer) (st : State F) : Prop := {
  wf_type : s_DeviceType st = kUnityGfxRendererNull \/ s_DeviceType st = r;
  wf_device : s_DeviceType st = kUnityGfxRendererD3D11 ->
              g_D3D11Device st <> None;
  wf_resources : s_DeviceType st <> kUnityGfxRendererD3D11 ->
                 resources st = no_resources
}.

(** The globals that resource creation leaves alone. *)
Definition same_globals (st st' : State F) : Prop :=
  g_Time st' = g_Time st /\
  s_UnityStreamingAssetsPath st' = s_UnityStreamingAssetsPath st /\
  s_DeviceType st' = s_DeviceType st /\
  g_TexturePointer st' = g_TexturePointer st /\
  g_D3D11Device st' = g_D3D11Device st.

(** The calls of [SetDefaultGraphicsState] under Direct3D 11. *)
Definition default_state_calls (d : handle) (r : D3D11Resources)
  : list (Event F) :=
  [ EvGetImmediateContext d;
    EvOMSetDepthStencilState (g_D3D11DepthState r);
    EvRSSetState (g_D3D11RasterState r);
    EvOMSetBlendState (g_D3D11BlendState r);
    EvContextRelease ].

(** The calls that draw the triangle, from taking the context to [Draw]. *)
Definition draw_calls (d : handle) (r : D3D11Resources)
    (world : list F) (vs : list (MyVertex F)) : list (Event F) :=
  [ EvGetImmediateContext d;
    EvUpdateSubresource (g_D3D11CB r) (WorldMatrix world) 64;
    EvVSSetConstantBuffers (g_D3D11CB r);
    EvVSSetShader (g_D3D11VertexShader r);
    EvPSSetShader (g_D3D11PixelShader r);
    EvUpdateSubresource (g_D3D11VB r) (Vertices vs) (16 * 3);
    EvIASetInputLayout (g_D3D11InputLayout r);
    EvIASetPrimitiveTopology_TRIANGLELIST;
    EvIASetVertexBuffers (g_D3D11VB r) 16 0;
    EvDraw 3 0 ].

(** A call that hands the plugin a texture. *)
Definition sets_texture (c : Call F) : bool :=
  match c with CallSetTexture (Some _) => true | _ => false end.

Definition is_render_event (c : Call F) : bool :=
  match c with CallRenderEvent _ => true | _ => false end.

(** Every call of the script is made under a host with renderer [r]. *)
Definition hosted (r : UnityGfxRenderer) (script : list (Host * Call F))
  : Prop :=
  Forall (fun hc => GetRenderer (fst hc) = r) script.

(** A host under which a creation attempt cannot fail on the shaders. *)
Definition good_host (h : Host) : Prop :=
  forall path, path <> "" -> shaders_loadable h path = true.

(** A resource set without vertex shader is empty: no attempt has failed
    half way. *)
Definition settled (st : State F) : Prop :=
  g_D3D11VertexShader (resources st) = None -> resources st = no_resources.

(** The states the plugin can be in under a host whose renderer is [r]:
    those a script leads to from the initial state. *)
Definition reachable {FO : FloatOps F} (r : UnityGfxRenderer)
    (st : State F) : Prop :=
  exists script evs,
    hosted r script /\ run script initial_state = Some (tt, st, evs).

(** A fresh start in which the host has already given the time and the
    path of [st], the device having made as many objects as in [st]. *)
Definition restarted {FO : FloatOps F} (st : State F) : State F :=
  set_Time (g_Time st)
    (set_Path (s_UnityStreamingAssetsPath st)
       (set_next_handle (next_handle st) initial_state)).

(** The result of a computation with its events prefixed by [es]. *)
Definition prefixing {A : Type} (es : list (Event F))
    (r : option (A * State F * list (Event F)))
  : option (A * State F * list (Event F)) :=
  match r with
  | Some (a, s, es') => Some (a, s, es ++ es')
  | None => None
  end.

End Vocabulary.

(** ** The managed script that drives the plugin

    [UnityProject/Assets/UseRenderingPlugin.cs], as the calls it makes into
    the plugin.  [Start] passes the streaming assets path and the native
    pointer of the texture it created, then runs the coroutine
    [CallPluginAtEndOfFrames], which at the end of every frame passes the
    time and issues the plugin event 1.  The coroutine never ends; here it
    runs for the frames whose times are listed. *)

Section ManagedScript.

Context {F : Type}.

Definition CallPluginAtEndOfFrames (times : list F) : list (Call F) :=
  flat_map (fun t => [CallSetTime t; CallRenderEvent 1]) times.

Definition Start (streamingAssetsPath : string) (nativeTexturePtr : ptr)
    (times : list F) : list (Call F) :=
  CallSetPath streamingAssetsPath ::
  CallSetTexture nativeTexturePtr ::
  CallPluginAtEndOfFrames times.

(** The whole session under one host: the plugin is loaded, then the script
    starts. *)
Definition session (h : Host) (streamingAssetsPath : string)
    (nativeTexturePtr : ptr) (times : list F) : list (Host * Call F) :=
  map (fun c => (h, c))
      (CallPluginLoad :: Start streamingAssetsPath nativeTexturePtr times).

(** ** More vocabulary *)

(** The lines a run wrote to the log. *)
Definition log_lines (evs : list (Event F)) : list string :=
  omap (fun e => match e with EvLog s => Some s | _ => None end) evs.

Definition is_log (e : Event F) : bool :=
  match e with EvLog _ => true | _ => false end.

(** References to the immediate context taken and given back. *)
Definition takes_context (e : Event F) : bool :=
  match e with EvGetImmediateContext _ => true | _ => false end.

Definition releases_context (e : Event F) : bool :=
  match e with EvContextRelease => true | _ => false end.

Definition is_draw (e : Event F) : bool :=
  match e with EvDraw _ _ => true | _ => false end.

Definition is_upload (e : Event F) : bool :=
  match e with EvUpdateSubresource _ (Pixels _) _ => true | _ => false end.

(** How many events of a run satisfy a test. *)
Definition count (p : Event F -> bool) (evs : list (Event F)) : nat :=
  length (filter (fun e => p e = true) evs).

(** A log line or a creation call: what resource creation may issue. *)
Definition is_setup (e : Event F) : bool :=
  match e with
  | EvLog _ => true
  | _ => match creation_call e with Some _ => true | None => false end
  end.

(** A log line, a creation call or a release: what the device events may
    issue. *)
Definition is_lifecycle (e : Event F) : bool :=
  is_setup e || match e with EvRelease _ => true | _ => false end.

End ManagedScript.

(** ** The real-number reading of the world matrix *)

(** Entry of a 4x4 matrix stored row by row. *)
Definition entry (m : list R) (row col : nat) : R :=
  nth (4 * row + col) m 0%R.

(** ** Concrete hosts, states and scripts

    Used to evaluate the plugin on inputs it can receive. *)

Module Examples.

(** A Direct3D 11 host whose device accepts every request and whose
    streaming assets hold no shader file. *)
Definition host_no_files : Host :=
  {| GetRenderer := kUnityGfxRendererD3D11;
     GetDevice := 100%positive;
     fopen := fun _ => None;
     device_creates := fun _ _ => true;
     GetDesc := fun _ => (2, 2) |}.

(** The same host once both compiled shaders are in place under the
    path [/assets]. *)
Definition host_with_shaders : Host :=
  {| GetRenderer := kUnityGfxRendererD3D11;
     GetDevice := 100%positive;
     fopen := fun name =>
       if String.eqb name (vertexShaderPath "/assets") then Some [68; 88; 66]
       else if String.eqb name (fragmentShaderPath "/assets")
            then Some [68; 88; 67]
            else None;
     device_creates := fun _ _ => true;
     GetDesc := fun _ => (2, 2) |}.

(** A host under which the shader files load whatever the path. *)
Definition host_shaders_anywhere : Host :=
  {| GetRenderer := kUnityGfxRendererD3D11;
     GetDevice := 100%positive;
     fopen := fun _ => Some [68; 88; 66];
     device_creates := fun _ _ => true;
     GetDesc := fun _ => (2, 2) |}.

(** The plugin after Initialize under Direct3D 11, the path set, nothing
    created yet. *)
Definition st_path_set : State R :=
  {| g_Time := 0%R;
     s_UnityStreamingAssetsPath := "/assets";
     s_DeviceType := kUnityGfxRendererD3D11;
     g_TexturePointer := Some 7%positive;
     g_D3D11Device := Some 100%positive;
     resources := no_resources;
     next_handle := 1%positive |}.

(** The plugin with a full resource set. *)
Definition st_ready : State R :=
  {| g_Time := 0%R;
     s_UnityStreamingAssetsPath := "/assets";
     s_DeviceType := kUnityGfxRendererD3D11;
     g_TexturePointer := Some 7%positive;
     g_D3D11Device := Some 100%positive;
     resources :=
       {| g_D3D11VB := Some 1%positive; g_D3D11CB := Some 2%positive;
          g_D3D11VertexShader := Some 3%positive;
          g_D3D11PixelShader := Some 4%positive;
          g_D3D11InputLayout := Some 5%positive;
          g_D3D11RasterState := Some 6%positive;
          g_D3D11BlendState := Some 8%positive;
          g_D3D11DepthState := Some 7%positive |};
     next_handle := 9%positive |}.

(** A session that leads to [st_ready], and the calls it makes. *)
Definition st_ready_script : list (Host * Call R) :=
  [ (host_with_shaders, CallSetPath "/assets");
    (host_with_shaders, CallPluginLoad);
    (host_with_shaders, CallSetTexture (Some 7%positive)) ].

Definition st_ready_events : list (Event R) :=
  [ EvLog ("OnGraphicsDeviceEvent(Initialize)." ++ nl)%string;
    EvCreateBuffer 1024 VertexBuffer (Some 1%positive);
    EvCreateBuffer 64 ConstantBuffer (Some 2%positive);
    EvCreateVertexShader [68; 88; 66] (Some 3%positive);
    EvCreatePixelShader [68; 88; 67] (Some 4%positive);
    EvCreateInputLayout 2 [68; 88; 66] (Some 5%positive);
    EvCreateRasterizerState (Some 6%positive);
    EvCreateDepthStencilState (Some 7%positive);
    EvCreateBlendState (Some 8%positive) ].

(** The host loads the plugin, the script sets path and texture, two frames
    are rendered while the shader files are missing, the device shuts
    down. *)
Definition frames_without_shaders : list (Host * Call R) :=
  [ (host_no_files, CallPluginLoad);
    (host_no_files, CallSetPath "/assets");
    (host_no_files, CallSetTexture (Some 7%positive));
    (host_no_files, CallSetTime 0%R);
    (host_no_files, CallRenderEvent 1);
    (host_no_files, CallSetTime 1%R);
    (host_no_files, CallRenderEvent 1);
    (host_no_files, CallDeviceEvent kUnityGfxDeviceEventShutdown) ].

(** The same session with the shader files in place. *)
Definition frames_with_shaders : list (Host * Call R) :=
  [ (host_with_shaders, CallPluginLoad);
    (host_with_shaders, CallSetPath "/assets");
    (host_with_shaders, CallSetTexture (Some 7%positive));
    (host_with_shaders, CallSetTime 0%R);
    (host_with_shaders, CallRenderEvent 1);
    (host_with_shaders, CallSetTime 1%R);
    (host_with_shaders, CallRenderEvent 1);
    (host_with_shaders, CallDeviceEvent kUnityGfxDeviceEventShutdown) ].

End Examples.

(** ** More concrete hosts and states *)

Module MoreExamples.

Import Examples.

(** The shader files are in place, the device rejects the vertex shader. *)
Definition host_rejects_vertex_shader : Host :=
  {| GetRenderer := kUnityGfxRendererD3D11;
     GetDevice := 100%positive;
     fopen := fopen host_with_shaders;
     device_creates := fun k _ =>
       match k with VertexShader => false | _ => true end;
     GetDesc := fun _ => (2, 2) |}.

(** The shader files are in place, the device rejects the pixel shader. *)
Definition host_rejects_pixel_shader : Host :=
  {| GetRenderer := kUnityGfxRendererD3D11;
     GetDevice := 100%positive;
     fopen := fopen host_with_shaders;
     device_creates := fun k _ =>
       match k with PixelShader => false | _ => true end;
     GetDesc := fun _ => (2, 2) |}.

(** The vertex shader file exists and is empty. *)
Definition host_empty_vertex_file : Host :=
  {| GetRenderer := kUnityGfxRendererD3D11;
     GetDevice := 100%positive;
     fopen := fun name =>
       if String.eqb name (vertexShaderPath "/assets") then Some []
       else fopen host_with_shaders name;
     device_creates := fun _ _ => true;
     GetDesc := fun _ => (2, 2) |}.

(** A host with another renderer. *)
Definition host_other_renderer : Host :=
  {| GetRenderer := kUnityGfxRendererOther 0;
     GetDevice := 100%positive;
     fopen := fopen host_with_shaders;
     device_creates := fun _ _ => true;
     GetDesc := fun _ => (2, 2) |}.

(** The plugin after its load under Direct3D 11, the path not yet set. *)
Definition st_waiting : State R :=
  {| g_Time := 0%R;
     s_UnityStreamingAssetsPath := "";
     s_DeviceType := kUnityGfxRendererD3D11;
     g_TexturePointer := None;
     g_D3D11Device := Some 100%positive;
     resources := no_resources;
     next_handle := 1%positive |}.

(** A frame, then the end of the device. *)
Definition frame_then_shutdown : list (Host * Call R) :=
  [ (host_with_shaders, CallRenderEvent 1);
    (host_with_shaders, CallDeviceEvent kUnityGfxDeviceEventShutdown) ].

(** A session under a renderer the plugin has no code for. *)
Definition other_renderer_script : list (Host * Call R) :=
  [ (host_other_renderer, CallPluginLoad);
    (host_other_renderer, CallSetPath "/assets");
    (host_other_renderer, CallRenderEvent 1);
    (host_other_renderer, CallDeviceEvent kUnityGfxDeviceEventShutdown) ].

(** A session in which the shaders load whatever the path. *)
Definition anywhere_script : list (Host * Call R) :=
  [ (host_shaders_anywhere, CallPluginLoad);
    (host_shaders_anywhere, CallSetPath "/elsewhere");
    (host_shaders_anywhere, CallRenderEvent 1);
    (host_shaders_anywhere, CallRenderEvent 2) ].

End MoreExamples.

(** * Proofs *)

Section Proofs.

Context {F : Type} {FO : FloatOps F}.
Implicit Types (st : State F) (h : Host).

(** ** Equations of the monad *)

Lemma bind_ret {A B} (a : A) (k : A -> M F B) st : (mret a ≫= k) st = k a st.
Proof.
  unfold mbind, M_bind, mret, M_ret.
  destruct (k a st) as [[[b s] es]|]; reflexivity.
Qed.

Lemma bind_gets {A B} (f : State F -> A) (k : A -> M F B) st :
  (gets f ≫= k) st = k (f st) st.
Proof.
  unfold mbind, M_bind, gets.
  destruct (k _ st) as [[[b s] es]|]; reflexivity.
Qed.

Lemma bind_modify {B} (g : State F -> State F) (k : unit -> M F B) st :
  (modify g ≫= k) st = k tt (g st).
Proof.
  unfold mbind, M_bind, modify.
  destruct (k _ _) as [[[b s] es]|]; reflexivity.
Qed.

Lemma bind_emit {B} (e : Event F) (k : unit -> M F B) st :
  (emit e ≫= k) st = prefixing [e] (k tt st).
Proof. reflexivity. Qed.

Lemma bind_assoc {A B C} (m : M F A) (f : A -> M F B) (g : B -> M F C) st :
  ((m ≫= f) ≫= g) st = (m ≫= (fun a => f a ≫= g)) st.
Proof.
  unfold mbind, M_bind. destruct (m st) as [[[a s1] e1]|]; [|reflexivity].
  destruct (f a s1) as [[[b s2] e2]|]; [|reflexivity].
  destruct (g b s2) as [[[c s3] e3]|]; [|reflexivity].
  by rewrite app_assoc.
Qed.

(** A step whose outcome is known. *)
Lemma bind_eq {A B} (m : M F A) (k : A -> M F B) st a st1 e1 :
  m st = Some (a, st1, e1) -> (m ≫= k) st = prefixing e1 (k a st1).
Proof. intros H. unfold mbind, M_bind. rewrite H. reflexivity. Qed.

(** Projections of a state or a resource set that was just assigned to. *)
Ltac fields :=
  cbn [g_Time s_UnityStreamingAssetsPath s_DeviceType g_TexturePointer
       g_D3D11Device resources next_handle
       g_D3D11VB g_D3D11CB g_D3D11VertexShader g_D3D11PixelShader
       g_D3D11InputLayout g_D3D11RasterState g_D3D11BlendState
       g_D3D11DepthState
       set_Time set_Path set_DeviceType set_TexturePointer set_Device
       set_resources set_next_handle
       set_VB set_CB set_VertexShader set_PixelShader set_InputLayout
       set_RasterState set_BlendState set_DepthState fst snd] in *.

(** Run a computation on a state whose fields are explicit, as far as the
    answers of the host allow. *)
Ltac mrun :=
  lazy [mbind M_bind mret M_ret gets modify emit device d3d_create assign
        DebugLog SAFE_RELEASE prefixing
        g_Time s_UnityStreamingAssetsPath s_DeviceType g_TexturePointer
        g_D3D11Device resources next_handle
        g_D3D11VB g_D3D11CB g_D3D11VertexShader g_D3D11PixelShader
        g_D3D11InputLayout g_D3D11RasterState g_D3D11BlendState
        g_D3D11DepthState
        set_Time set_Path set_DeviceType set_TexturePointer set_Device
        set_resources set_next_handle
        set_VB set_CB set_VertexShader set_PixelShader set_InputLayout
        set_RasterState set_BlendState set_DepthState
        fst snd app nonempty length Nat.ltb Nat.leb andb is_D3D11 is_Null].

(** ** EnsureD3D11ResourcesAreCreated *)

Lemma Ensure_ready h st a :
  g_D3D11VertexShader (resources st) = Some a ->
  EnsureD3D11ResourcesAreCreated h st = Some (true, st, []).
Proof.
  intros H. unfold EnsureD3D11ResourcesAreCreated.
  rewrite bind_gets, H. reflexivity.
Qed.

Lemma Ensure_no_path h st :
  g_D3D11VertexShader (resources st) = None ->
  s_UnityStreamingAssetsPath st = "" ->
  EnsureD3D11ResourcesAreCreated h st = Some (false, st, []).
Proof.
  intros H Hp. unfold EnsureD3D11ResourcesAreCreated.
  rewrite bind_gets, H, bind_gets, Hp. reflexivity.
Qed.

Lemma path_nonempty (p : string) : p <> "" -> String.eqb p "" = false.
Proof. intros H. by destruct (String.eqb_spec p ""). Qed.

(** A creation attempt: the vertex shader is missing, the path is set. *)
Lemma Ensure_attempt h st d :
  g_D3D11VertexShader (resources st) = None ->
  s_UnityStreamingAssetsPath st <> "" ->
  g_D3D11Device st = Some d ->
  exists st' evs,
    EnsureD3D11ResourcesAreCreated h st = Some (true, st', evs) /\
    same_globals st st' /\
    Forall (fun e => is_texture_event e = false) evs /\
    (shaders_loadable h (s_UnityStreamingAssetsPath st) = false ->
     g_D3D11VertexShader (resources st') = None) /\
    (shader_files_loaded h (s_UnityStreamingAssetsPath st) = false ->
     In (EvLog ("Failed to load vertex or pixel shader." ++ nl)%string) evs) /\
    (shaders_loadable h (s_UnityStreamingAssetsPath st) = true ->
     g_D3D11VertexShader (resources st') <> None /\
     omap creation_call evs = all_kinds).
Proof.
  intros H Hp Hd.
  destruct st as [t p ty tp dev [vb cb vs ps il rs bs ds] n].
  fields. subst dev vs.
  unfold EnsureD3D11ResourcesAreCreated.
  rewrite bind_gets; fields; rewrite bind_gets; fields.
  rewrite (path_nonempty _ Hp).
  unfold shaders_loadable, shader_files_loaded, shader_bytes,
    LoadFileIntoBuffer.
  destruct (fopen h (vertexShaderPath p)) as [[|v0 vbytes]|];
    destruct (fopen h (fragmentShaderPath p)) as [[|p0 pbytes]|]; mrun.
  5: destruct (device_creates h VertexShader (v0 :: vbytes)) eqn:Hvs; mrun;
     destruct (device_creates h PixelShader (p0 :: pbytes)) eqn:Hps; mrun.
  all: eexists; eexists; split; [reflexivity|].
  all: split; [by unfold same_globals|].
  all: split; [repeat constructor|].
  all: repeat split; try done; cbn [In]; auto 10.
Qed.

Lemma Ensure_total h st d :
  g_D3D11Device st = Some d ->
  exists b st' evs,
    EnsureD3D11ResourcesAreCreated h st = Some (b, st', evs) /\
    same_globals st st' /\
    Forall (fun e => is_texture_event e = false) evs /\
    (b = false -> st' = st /\ evs = []).
Proof.
  intros Hd.
  destruct (g_D3D11VertexShader (resources st)) as [a|] eqn:Hvs.
  { exists true, st, []. rewrite (Ensure_ready _ _ _ Hvs).
    repeat split; try done. }
  destruct (String.eqb_spec (s_UnityStreamingAssetsPath st) "") as [Hp|Hp].
  { exists false, st, []. rewrite (Ensure_no_path _ _ Hvs Hp).
    repeat split; try done. }
  destruct (Ensure_attempt h st d Hvs Hp Hd) as (st' & evs & -> & Hg & Ht & _).
  exists true, st', evs. repeat split; try done; apply Hg.
Qed.

Lemma Release_all st :
  ReleaseD3D11Resources st =
  Some (tt, set_resources no_resources st,
        map EvRelease (held (resources st))).
Proof.
  destruct st as [t p ty tp dev [vb cb vs ps il rs bs ds] n].
  unfold ReleaseD3D11Resources.
  destruct vb, cb, vs, ps, il, rs, bs, ds; reflexivity.
Qed.

(** ** Device events *)

Lemma OnGraphicsDeviceEvent_Shutdown h st :
  OnGraphicsDeviceEvent h kUnityGfxDeviceEventShutdown st =
  let st1 := set_TexturePointer None
               (set_DeviceType kUnityGfxRendererNull st) in
  Some (tt,
        if is_D3D11 (s_DeviceType st) then set_resources no_resources st1
        else st1,
        EvLog ("OnGraphicsDeviceEvent(Shutdown)." ++ nl)%string ::
        if is_D3D11 (s_DeviceType st)
        then map EvRelease (held (resources st)) else []).
Proof.
  unfold OnGraphicsDeviceEvent, DoEventGraphicsDeviceD3D11.
  rewrite bind_gets, !bind_assoc. unfold DebugLog.
  rewrite bind_emit, bind_assoc, bind_modify, bind_assoc, bind_modify,
    bind_ret.
  destruct (s_DeviceType st); cbn [is_D3D11]; try reflexivity.
  rewrite Release_all. reflexivity.
Qed.

Lemma OnGraphicsDeviceEvent_Initialize h st :
  OnGraphicsDeviceEvent h kUnityGfxDeviceEventInitialize st =
  prefixing [EvLog ("OnGraphicsDeviceEvent(Initialize)." ++ nl)%string]
    (if is_D3D11 (GetRenderer h) then
       (EnsureD3D11ResourcesAreCreated h ≫= fun _ => mret tt)
         (set_Device (Some (GetDevice h))
            (set_DeviceType (GetRenderer h) st))
     else Some (tt, set_DeviceType (GetRenderer h) st, [])).
Proof.
  unfold OnGraphicsDeviceEvent, DoEventGraphicsDeviceD3D11.
  rewrite bind_gets, !bind_assoc. unfold DebugLog.
  rewrite bind_emit, bind_assoc, bind_modify, bind_gets.
  fields. destruct (GetRenderer h); cbn [is_D3D11]; try reflexivity.
  by rewrite bind_modify.
Qed.

Lemma OnGraphicsDeviceEvent_reset h (eventType : UnityGfxDeviceEventType) st
    (msg : string) :
  (eventType = kUnityGfxDeviceEventBeforeReset /\
   msg = "OnGraphicsDeviceEvent(BeforeReset).") \/
  (eventType = kUnityGfxDeviceEventAfterReset /\
   msg = "OnGraphicsDeviceEvent(AfterReset).") ->
  OnGraphicsDeviceEvent h eventType st = Some (tt, st, [EvLog (msg ++ nl)]).
Proof.
  intros [[-> ->]|[-> ->]];
    unfold OnGraphicsDeviceEvent, DoEventGraphicsDeviceD3D11, DebugLog;
    rewrite bind_gets, bind_assoc, bind_emit, bind_ret;
    by destruct (s_DeviceType st).
Qed.

(** ** The render event *)

Lemma OnRenderEvent_Null h eventID st :
  s_DeviceType st = kUnityGfxRendererNull ->
  OnRenderEvent h eventID st = Some (tt, st, []).
Proof.
  intros H. unfold OnRenderEvent. by rewrite bind_gets, H.
Qed.

Lemma OnRenderEvent_other h eventID st id :
  s_DeviceType st = kUnityGfxRendererOther id ->
  OnRenderEvent h eventID st = Some (tt, st, []).
Proof.
  intros H. destruct st as [t p ty tp dev r n]. fields. subst ty.
  reflexivity.
Qed.

(** Under Direct3D 11 a frame is the default state, the resource check and,
    when it answers "ready", the draw and the texture fill. *)
Lemma OnRenderEvent_D3D11 h eventID st d :
  s_DeviceType st = kUnityGfxRendererD3D11 ->
  g_D3D11Device st = Some d ->
  exists b st' evE,
    EnsureD3D11ResourcesAreCreated h st = Some (b, st', evE) /\
    OnRenderEvent h eventID st =
    Some (tt, st',
          default_state_calls d (resources st) ++ evE ++
          if b then
            draw_calls d (resources st') (worldMatrix (g_Time st)) verts ++
            match g_TexturePointer st with
            | Some d3dtex =>
                let Width := fst (GetDesc h d3dtex) in
                let Height := snd (GetDesc h d3dtex) in
                [ EvTextureGetDesc d3dtex;
                  EvUpdateSubresource (Some d3dtex)
                    (Pixels (FillTextureFromCode (g_Time st) Width Height
                               (Width * 4)
                               (new_bytes (Width * Height * 4))))
                    (Width * 4) ]
            | None => []
            end ++ [EvContextRelease]
          else []).
Proof.
  intros Hty Hd.
  destruct (Ensure_total h st d Hd) as (b & st' & evE & HE & Hg & _ & Hb).
  exists b, st', evE. split; [done|].
  destruct st as [t p ty tp dev r n], st' as [t' p' ty' tp' dev' r' n'].
  destruct Hg as (? & ? & ? & ? & ?). fields. subst.
  unfold OnRenderEvent, SetDefaultGraphicsState, DoRendering. mrun.
  rewrite HE. destruct b; mrun.
  - destruct tp as [tex|]; mrun; reflexivity.
  - reflexivity.
Qed.

(** ** The invariant *)

Lemma wf_same_globals r st st' :
  wf r st -> same_globals st st' ->
  s_DeviceType st = kUnityGfxRendererD3D11 -> wf r st'.
Proof.
  intros [Ht Hd Hr] (_ & _ & Hty & _ & Hdev) HD.
  split; rewrite ?Hty, ?Hdev; auto. congruence.
Qed.

Lemma wf_initial r : wf r (initial_state (F := F)).
Proof. split; cbn; auto; congruence. Qed.

(** No call faults, and every call keeps the invariant; a texture pointer
    that is null stays null unless the host sets one. *)
Lemma call_wf r h (c : Call F) st :
  wf r st -> GetRenderer h = r ->
  exists st' evs,
    call h c st = Some (tt, st', evs) /\ wf r st' /\
    (sets_texture c = false -> g_TexturePointer st = None ->
     g_TexturePointer st' = None).
Proof.
  intros Hwf Hr.
  assert (HI : exists st' evs,
    OnGraphicsDeviceEvent h kUnityGfxDeviceEventInitialize st =
      Some (tt, st', evs) /\ wf r st' /\
    g_TexturePointer st' = g_TexturePointer st).
  { rewrite OnGraphicsDeviceEvent_Initialize, Hr.
    destruct Hwf as [Ht Hd Hres].
    destruct (is_D3D11 r) eqn:HD.
    - destruct r; try discriminate.
      set (st0 := set_Device _ _).
      destruct (Ensure_total h st0 (GetDevice h) eq_refl)
        as (b & st' & evs & HE & Hg & _).
      rewrite (bind_eq _ _ _ _ _ _ HE). cbn [prefixing mret M_ret].
      eexists _, _. split; [reflexivity|].
      destruct Hg as (_ & _ & Hty & Htp & Hdev).
      split; [|by rewrite Htp].
      split; rewrite ?Hty, ?Hdev; subst st0; fields; auto; congruence.
    - eexists _, _. split; [reflexivity|]. split; [|done].
      split; fields; auto.
      + by intros ->.
      + intros _. apply Hres. destruct Ht as [-> | ->]; [done|].
        by intros ->. }
  destruct c as [t|path|p| | |[]|eventID]; cbn [call].
  - eexists _, _. split; [reflexivity|].
    by destruct Hwf; split; [split|]; fields.
  - eexists _, _. split; [reflexivity|].
    by destruct Hwf; split; [split|]; fields.
  - eexists _, _. split; [reflexivity|].
    destruct Hwf; split; [split|]; fields; try done.
    by destruct p.
  - destruct HI as (st' & evs & HI & ? & Htp).
    exists st', evs. split; [done|split; [done|]].
    intros _. by rewrite Htp.
  - eexists _, _. split; [reflexivity|]. done.
  - destruct HI as (st' & evs & HI & ? & Htp).
    exists st', evs. split; [done|split; [done|]].
    intros _. by rewrite Htp.
  - rewrite OnGraphicsDeviceEvent_Shutdown. cbv zeta.
    eexists _, _. split; [reflexivity|].
    destruct Hwf as [Ht Hd Hres].
    destruct (s_DeviceType st) eqn:Hty; cbn [is_D3D11]; fields;
      (split; [split; fields; auto; try congruence;
               intros _; apply Hres; congruence | done]).
  - rewrite (OnGraphicsDeviceEvent_reset h _ st
               "OnGraphicsDeviceEvent(BeforeReset).") by auto.
    eexists _, _. split; [reflexivity|]. done.
  - rewrite (OnGraphicsDeviceEvent_reset h _ st
               "OnGraphicsDeviceEvent(AfterReset).") by auto.
    eexists _, _. split; [reflexivity|]. done.
  - destruct (s_DeviceType st) eqn:Hty.
    + rewrite OnRenderEvent_Null by done. eexists _, _. done.
    + destruct (g_D3D11Device st) as [d|] eqn:Hd;
        [|by destruct Hwf as [_ Hdev _]; destruct (Hdev Hty)].
      destruct (OnRenderEvent_D3D11 h eventID st d Hty Hd)
        as (b & st' & evE & HE & ->).
      destruct (Ensure_total h st d Hd) as (b' & st'' & evE' & HE' & Hg & _).
      rewrite HE in HE'. injection HE' as <- <- <-.
      eexists _, _. split; [reflexivity|].
      split; [by eapply wf_same_globals|].
      intros _ <-. apply Hg.
    + rewrite (OnRenderEvent_other h eventID st id) by done.
      eexists _, _. done.
Qed.

Lemma run_wf r (script : list (Host * Call F)) st :
  wf r st -> hosted r script ->
  exists st' evs,
    run script st = Some (tt, st', evs) /\ wf r st' /\
    (Forall (fun hc => sets_texture (snd hc) = false) script ->
     g_TexturePointer st = None -> g_TexturePointer st' = None).
Proof.
  revert st. induction script as [|[h c] script IH]; intros st Hwf Hh.
  { exists st, []. done. }
  apply Forall_cons in Hh as [Hr Hh]. cbn [fst] in Hr.
  destruct (call_wf r h c st Hwf Hr) as (st1 & e1 & Hc & Hwf1 & Ht1).
  destruct (IH st1 Hwf1 Hh) as (st2 & e2 & Hrun & Hwf2 & Ht2).
  exists st2, (e1 ++ e2). split; [|split; [done|]].
  - cbn [run]. rewrite (bind_eq _ _ _ _ _ _ Hc), Hrun. reflexivity.
  - intros Hs Htp. apply Forall_cons in Hs as [Hs1 Hs]. auto.
Qed.

(** ** The claims on resource creation *)

(** C1, as amended.  While no vertex shader exists:
    with the asset path unset, [EnsureD3D11ResourcesAreCreated] returns
    false and changes nothing; with the path set and a shader file missing
    or empty, the call logs the failure, returns true all the same and
    leaves the vertex shader null, so that the next call attempts the
    creation again and obtains the vertex shader as soon as the files load
    (under any later host [h2]): nothing is cached as a permanent failure. *)
Theorem Ensure_ready_check h h2 st d :
  g_D3D11VertexShader (resources st) = None ->
  g_D3D11Device st = Some d ->
  (s_UnityStreamingAssetsPath st = "" ->
   EnsureD3D11ResourcesAreCreated h st = Some (false, st, [])) /\
  (s_UnityStreamingAssetsPath st <> "" ->
   shader_files_loaded h (s_UnityStreamingAssetsPath st) = false ->
   exists st' evs,
     EnsureD3D11ResourcesAreCreated h st = Some (true, st', evs) /\
     g_D3D11VertexShader (resources st') = None /\
     In (EvLog ("Failed to load vertex or pixel shader." ++ nl)%string) evs /\
     (shaders_loadable h2 (s_UnityStreamingAssetsPath st) = true ->
      exists st'' evs',
        EnsureD3D11ResourcesAreCreated h2 st' = Some (true, st'', evs') /\
        g_D3D11VertexShader (resources st'') <> None)).
Proof.
  intros Hvs Hd. split; [by apply Ensure_no_path|].
  intros Hp Hl.
  destruct (Ensure_attempt h st d Hvs Hp Hd)
    as (st' & evs & HE & Hg & _ & Hnone & Hlog & _).
  exists st', evs. split; [done|].
  assert (Hvs' : g_D3D11VertexShader (resources st') = None).
  { apply Hnone. unfold shaders_loadable. by rewrite Hl. }
  repeat split; auto.
  intros Hok. destruct Hg as (_ & Hp' & _ & _ & Hd').
  rewrite <- Hp' in Hp, Hok. rewrite <- Hd' in Hd.
  destruct (Ensure_attempt h2 st' d Hvs' Hp Hd)
    as (st'' & evs' & HE' & _ & _ & _ & _ & Hsome).
  exists st'', evs'. split; [done|]. by apply Hsome.
Qed.

Lemma ensure_each_ready (hs : list Host) st a :
  g_D3D11VertexShader (resources st) = Some a ->
  ensure_each hs st = Some (replicate (length hs) true, st, []).
Proof.
  intros H. induction hs as [|h hs IH]; [done|].
  cbn [ensure_each]. rewrite (bind_eq _ _ _ _ _ _ (Ensure_ready h st a H)).
  rewrite (bind_eq _ _ _ _ _ _ IH). reflexivity.
Qed.

(** C3.  A call that finds the vertex shader returns true at once: same
    state, no call issued.  Hence, with the asset path set and shader files
    that load, any number of calls (the first under [h], the others under
    the hosts [hs]) all answer true and together do what the first call
    alone does, which issues exactly one creation call for each of the
    eight members of the resource set. *)
Theorem Ensure_idempotent h (hs : list Host) st d :
  g_D3D11VertexShader (resources st) = None ->
  s_UnityStreamingAssetsPath st <> "" ->
  g_D3D11Device st = Some d ->
  shaders_loadable h (s_UnityStreamingAssetsPath st) = true ->
  (forall h0 st0 a,
     g_D3D11VertexShader (resources st0) = Some a ->
     EnsureD3D11ResourcesAreCreated h0 st0 = Some (true, st0, [])) /\
  exists st1 evs1,
    EnsureD3D11ResourcesAreCreated h st = Some (true, st1, evs1) /\
    omap creation_call evs1 = all_kinds /\
    ensure_each (h :: hs) st =
      Some (replicate (S (length hs)) true, st1, evs1).
Proof.
  intros Hvs Hp Hd Hok. split; [apply Ensure_ready|].
  destruct (Ensure_attempt h st d Hvs Hp Hd)
    as (st1 & evs1 & HE & _ & _ & _ & _ & Hsome).
  destruct (Hsome Hok) as [Hvs1 Hk].
  exists st1, evs1. repeat split; try done.
  destruct (g_D3D11VertexShader (resources st1)) as [a|] eqn:Ha; [|done].
  cbn [ensure_each]. rewrite (bind_eq _ _ _ _ _ _ HE).
  rewrite (bind_eq _ _ _ _ _ _ (ensure_each_ready hs st1 a Ha)).
  cbn [prefixing mret M_ret replicate]. by rewrite !app_nil_r.
Qed.

(** ** The claims on the render event *)

(** C6.  With the backend unset, [OnRenderEvent] returns the state it was
    given and issues no call, whatever the event id; so does any sequence
    of render events. *)
Theorem OnRenderEvent_without_backend h eventID
    (script : list (Host * Call F)) st :
  s_DeviceType st = kUnityGfxRendererNull ->
  Forall (fun hc => is_render_event (snd hc) = true) script ->
  OnRenderEvent h eventID st = Some (tt, st, []) /\
  run script st = Some (tt, st, []).
Proof.
  intros Hty Hs. split; [by apply OnRenderEvent_Null|].
  induction Hs as [|[h' c] script Hc _ IH]; [done|].
  destruct c; try discriminate. cbn [run call].
  rewrite (bind_eq _ _ _ _ _ _ (OnRenderEvent_Null h' eventID0 st Hty)).
  by rewrite IH.
Qed.

(** C9.  [OnRenderEvent] does not look at its event id: from the same
    state and under the same host, two ids give the same state and the same
    calls. *)
Theorem OnRenderEvent_ignores_eventID h (eventID1 eventID2 : Z) st :
  OnRenderEvent h eventID1 st = OnRenderEvent h eventID2 st.
Proof. reflexivity. Qed.

(** ** The claims on device events and on the texture pointer *)

Lemma reachable_wf r st : reachable r st -> wf r st.
Proof.
  intros (script & evs & Hh & Hrun).
  destruct (run_wf r script initial_state (wf_initial r) Hh)
    as (st' & evs' & Hrun' & Hwf & _).
  rewrite Hrun in Hrun'. by injection Hrun' as -> _.
Qed.

(** What Shutdown does in a state where resources are held only under
    Direct3D 11. *)
Lemma Shutdown_effect h st :
  (s_DeviceType st <> kUnityGfxRendererD3D11 ->
   resources st = no_resources) ->
  exists st',
    OnGraphicsDeviceEvent h kUnityGfxDeviceEventShutdown st =
      Some (tt, st',
            EvLog ("OnGraphicsDeviceEvent(Shutdown)." ++ nl)%string ::
            map EvRelease (held (resources st))) /\
    s_DeviceType st' = kUnityGfxRendererNull /\
    g_TexturePointer st' = None /\
    resources st' = no_resources /\
    g_Time st' = g_Time st /\
    s_UnityStreamingAssetsPath st' = s_UnityStreamingAssetsPath st.
Proof.
  intros Hres. rewrite OnGraphicsDeviceEvent_Shutdown. cbv zeta.
  destruct (is_D3D11 (s_DeviceType st)) eqn:HD.
  - eexists. split; [reflexivity|]. by fields.
  - assert (Hno : resources st = no_resources).
    { apply Hres. by intros E; rewrite E in HD. }
    rewrite Hno. eexists. split; [reflexivity|]. by fields.
Qed.

(** C8.  In every state the plugin can reach, the Shutdown event sets the
    backend to null, clears the texture pointer, releases every object the
    resource set holds and leaves all eight pointers null. *)
Theorem Shutdown_releases_everything r h st :
  reachable r st ->
  exists st',
    OnGraphicsDeviceEvent h kUnityGfxDeviceEventShutdown st =
      Some (tt, st',
            EvLog ("OnGraphicsDeviceEvent(Shutdown)." ++ nl)%string ::
            map EvRelease (held (resources st))) /\
    s_DeviceType st' = kUnityGfxRendererNull /\
    g_TexturePointer st' = None /\
    resources st' = no_resources.
Proof.
  intros [_ _ Hres]%reachable_wf.
  destruct (Shutdown_effect h st Hres) as (st' & H1 & H2 & H3 & H4 & _).
  by exists st'.
Qed.

(** C10.  A BeforeReset or AfterReset event returns the state it was given,
    whatever that state is; its only effect is one log line. *)
Theorem reset_events_change_nothing h st :
  OnGraphicsDeviceEvent h kUnityGfxDeviceEventBeforeReset st =
    Some (tt, st, [EvLog ("OnGraphicsDeviceEvent(BeforeReset)." ++ nl)%string])
  /\
  OnGraphicsDeviceEvent h kUnityGfxDeviceEventAfterReset st =
    Some (tt, st, [EvLog ("OnGraphicsDeviceEvent(AfterReset)." ++ nl)%string]).
Proof. split; apply OnGraphicsDeviceEvent_reset; auto. Qed.

(** C7.  From any state the plugin can reach, after [SetTextureFromUnity]
    with a null pointer, and whatever the host does next short of setting a
    texture, a render event runs to its end without fault and issues no
    call of the texture fill step; under Direct3D 11 it still sets the
    default state, checks the resources and, when they are ready, issues
    the whole draw. *)
Theorem null_texture_skips_fill r (script : list (Host * Call F)) h
    (eventID : Z) st :
  reachable r st -> hosted r script -> GetRenderer h = r ->
  Forall (fun hc => sets_texture (snd hc) = false) script ->
  exists st1 evs1 st2 evs2,
    (SetTextureFromUnity None ≫= fun _ => run script) st =
      Some (tt, st1, evs1) /\
    g_TexturePointer st1 = None /\
    OnRenderEvent h eventID st1 = Some (tt, st2, evs2) /\
    Forall (fun e => is_texture_event e = false) evs2 /\
    (forall d,
       s_DeviceType st1 = kUnityGfxRendererD3D11 ->
       g_D3D11Device st1 = Some d ->
       exists b evE,
         EnsureD3D11ResourcesAreCreated h st1 = Some (b, st2, evE) /\
         evs2 =
           default_state_calls d (resources st1) ++ evE ++
           if b then
             draw_calls d (resources st2) (worldMatrix (g_Time st1)) verts ++
             [EvContextRelease]
           else []).
Proof.
  intros Hwf%reachable_wf Hh Hr Hs.
  assert (Hwf0 : wf r (set_TexturePointer None st)).
  { by destruct Hwf; split; fields. }
  destruct (run_wf r script _ Hwf0 Hh) as (st1 & evs1 & Hrun & Hwf1 & Htp).
  specialize (Htp Hs eq_refl).
  exists st1, evs1. unfold SetTextureFromUnity. rewrite bind_modify.
  destruct (s_DeviceType st1) eqn:Hty.
  - exists st1, []. rewrite OnRenderEvent_Null by done.
    repeat split; try done.
  - destruct (g_D3D11Device st1) as [d|] eqn:Hd;
      [|by destruct Hwf1 as [_ Hdev _]; destruct (Hdev Hty)].
    destruct (OnRenderEvent_D3D11 h eventID st1 d Hty Hd)
      as (b & st2 & evE & HE & HR).
    destruct (Ensure_total h st1 d Hd) as (b' & st2' & evE' & HE' & _ & Ht & _).
    rewrite HE in HE'. injection HE' as <- <- <-.
    rewrite Htp in HR. cbn [app] in HR.
    eexists st2, _. split; [done|]. split; [done|]. split; [exact HR|].
    split.
    + apply Forall_app_2; [repeat constructor|].
      apply Forall_app_2; [done|]. destruct b; repeat constructor.
    + intros d' _ [= <-]. by exists b, evE.
  - exists st1, []. rewrite (OnRenderEvent_other h eventID st1 id) by done.
    repeat split; try done.
Qed.

(** Shutdown followed by Initialize under Direct3D 11 does what Initialize
    does on a fresh start with the same time and path. *)
Lemma Shutdown_Initialize_as_fresh h1 h st :
  wf kUnityGfxRendererD3D11 st ->
  GetRenderer h = kUnityGfxRendererD3D11 ->
  exists st1 evs1,
    OnGraphicsDeviceEvent h1 kUnityGfxDeviceEventShutdown st =
      Some (tt, st1, evs1) /\
    OnGraphicsDeviceEvent h kUnityGfxDeviceEventInitialize st1 =
    OnGraphicsDeviceEvent h kUnityGfxDeviceEventInitialize (restarted st).
Proof.
  intros [_ _ Hres] Hr.
  destruct (Shutdown_effect h1 st Hres)
    as (st1 & HS & Hty & Htp & Hno & Ht & Hp).
  eexists st1, _. split; [exact HS|].
  rewrite !OnGraphicsDeviceEvent_Initialize, Hr. cbn [is_D3D11].
  f_equal. f_equal.
  rewrite OnGraphicsDeviceEvent_Shutdown in HS. cbv zeta in HS.
  injection HS as <- _. unfold restarted.
  destruct st as [t p ty tp dev res n]. fields.
  destruct (is_D3D11 ty); fields; subst; reflexivity.
Qed.

(** ** The texture fill *)

Lemma store_app (pre post : list Z) (a v : Z) :
  store (pre ++ a :: post) (Z.of_nat (length pre)) v =
  pre ++ v mod 256 :: post.
Proof.
  unfold store. rewrite (proj2 (Z.leb_le _ _)) by lia.
  rewrite Nat2Z.id. rewrite <- (Nat.add_0_r (length pre)).
  by rewrite insert_app_r.
Qed.

(** One pixel: the four stores overwrite the four bytes at [p]. *)
Lemma store_pixel (pre post : list Z) (a b c d v : Z) :
  let p := Z.of_nat (length pre) in
  store (store (store (store (pre ++ a :: b :: c :: d :: post)
                         (p + 0) v) (p + 1) v) (p + 2) v) (p + 3) v =
  pre ++ replicate 4 (v mod 256) ++ post.
Proof.
  cbv zeta. rewrite Z.add_0_r, store_app.
  replace (Z.of_nat (length pre) + 1)
    with (Z.of_nat (length (pre ++ [v mod 256])))
    by (rewrite length_app; cbn; lia).
  rewrite (cons_middle (v mod 256)), app_assoc, store_app.
  replace (Z.of_nat (length pre) + 2)
    with (Z.of_nat (length ((pre ++ [v mod 256]) ++ [v mod 256])))
    by (rewrite !length_app; cbn; lia).
  rewrite (cons_middle (v mod 256) _ (c :: _)), app_assoc, store_app.
  replace (Z.of_nat (length pre) + 3)
    with (Z.of_nat
            (length (((pre ++ [v mod 256]) ++ [v mod 256]) ++ [v mod 256])))
    by (rewrite !length_app; cbn; lia).
  rewrite (cons_middle (v mod 256) _ (d :: _)), app_assoc, store_app.
  by rewrite <- !app_assoc.
Qed.

Lemma seqZ_S (m : Z) (n : nat) :
  seqZ m (Z.of_nat (S n)) = m :: seqZ (m + 1) (Z.of_nat n).
Proof.
  rewrite seqZ_cons by lia. f_equal. f_equal; lia.
Qed.

(** The inner loop overwrites the [4 * n] bytes at its offset with the
    pixels of columns [x, x + n). *)
Lemma fill_row_spec (n : nat) :
  forall (x y : Z) (t : F) (pre mid post : list Z),
    length mid = (4 * n)%nat ->
    fill_row n x y t (Z.of_nat (length pre)) (pre ++ mid ++ post) =
    pre ++ flat_map (fun x => plasma_pixel x y t) (seqZ x (Z.of_nat n))
        ++ post.
Proof.
  induction n as [|n IH]; intros x y t pre mid post Hlen.
  { destruct mid; [done|discriminate]. }
  destruct mid as [|a [|b [|c [|d mid]]]]; try (cbn in Hlen; lia).
  cbn [fill_row]. cbv zeta.
  change ((a :: b :: c :: d :: mid) ++ post)
    with (a :: b :: c :: d :: (mid ++ post)).
  rewrite store_pixel.
  replace (Z.of_nat (length pre) + 4)
    with (Z.of_nat (length (pre ++ replicate 4 (plasma x y t mod 256))))
    by (rewrite length_app, length_replicate; lia).
  rewrite app_assoc, IH by (cbn in Hlen; lia).
  rewrite seqZ_S. cbn [flat_map]. unfold plasma_pixel at 2.
  by rewrite <- !app_assoc.
Qed.

(** The outer loop overwrites [n] rows of [4 * width] bytes with the rows
    [y, y + n) of the picture. *)
Lemma fill_rows_spec (n : nat) :
  forall (y width : Z) (t : F) (pre mid post : list Z),
    0 <= width ->
    length mid = (n * (4 * Z.to_nat width))%nat ->
    fill_rows n y width (width * 4) t (Z.of_nat (length pre))
      (pre ++ mid ++ post) =
    pre ++ flat_map (fun y => plasma_row y width t) (seqZ y (Z.of_nat n))
        ++ post.
Proof.
  induction n as [|n IH]; intros y width t pre mid post Hw Hlen.
  { destruct mid; [done|discriminate]. }
  cbn [fill_rows]. cbv zeta.
  rewrite <- (take_drop (4 * Z.to_nat width) mid), <- app_assoc.
  assert (Hrow : length (take (4 * Z.to_nat width) mid)
                 = (4 * Z.to_nat width)%nat).
  { rewrite length_take. lia. }
  rewrite fill_row_spec by done.
  rewrite Z2Nat.id by done. fold (plasma_row y width t).
  replace (Z.of_nat (length pre) + width * 4)
    with (Z.of_nat (length (pre ++ plasma_row y width t))).
  2: { rewrite length_app. unfold plasma_row.
       pose proof (fill_row_spec (Z.to_nat width) 0 y t [] _ [] Hrow) as E.
       apply (f_equal length) in E. cbn [app] in E.
       rewrite !app_nil_r, Z2Nat.id in E by done.
       rewrite <- E. clear E.
       assert (forall k x p m, length (fill_row k x y t p m) = length m) as L.
       { clear. induction k; intros; cbn [fill_row]; [done|]. cbv zeta.
         rewrite IHk. unfold store.
         repeat (case_match; rewrite ?length_insert); done. }
       rewrite L, Hrow. lia. }
  rewrite app_assoc, IH; [|done|rewrite length_drop; lia].
  rewrite seqZ_S. cbn [flat_map]. by rewrite <- !app_assoc.
Qed.

Lemma FillTextureFromCode_image (time : F) (width height : Z)
    (dst : list Z) :
  0 <= width -> 0 <= height ->
  length dst = Z.to_nat (width * height * 4) ->
  FillTextureFromCode time width height (width * 4) dst =
  plasma_image time width height.
Proof.
  intros Hw Hh Hlen. unfold FillTextureFromCode, plasma_image. cbv zeta.
  pose proof (fill_rows_spec (Z.to_nat height) 0 width
                (f_mul time (f_lit 4)) [] dst [] Hw) as E.
  cbn [app length] in E. rewrite !app_nil_r, Z2Nat.id in E by done.
  apply E. rewrite Hlen. nia.
Qed.

(** What the buffer held before the fill does not matter. *)
Lemma FillTextureFromCode_overwrites (time : F) (width height : Z)
    (dst : list Z) :
  0 <= width -> 0 <= height ->
  length dst = Z.to_nat (width * height * 4) ->
  FillTextureFromCode time width height (width * 4) dst =
  FillTextureFromCode time width height (width * 4)
    (new_bytes (width * height * 4)).
Proof.
  intros Hw Hh Hlen. rewrite !FillTextureFromCode_image; try done.
  unfold new_bytes. by rewrite length_replicate.
Qed.

(** C5.  On a buffer of [width * height * 4] bytes with rows [width * 4]
    bytes apart, as [DoRendering] calls it, [FillTextureFromCode] returns
    the picture of the specification: it depends on the width, the height
    and the time only, not on what the buffer held; every pixel of every row
    is written, and its four channels hold the same value, the plasma of
    the pixel's coordinates and the time. *)
Theorem FillTextureFromCode_plasma (time : F) (width height : Z)
    (dst : list Z) :
  0 <= width -> 0 <= height ->
  length dst = Z.to_nat (width * height * 4) ->
  FillTextureFromCode time width height (width * 4) dst =
  plasma_image time width height.
Proof. apply FillTextureFromCode_image. Qed.

(** ** Accounting of created and released objects *)

Lemma create_count_app (e1 e2 : list (Event F)) :
  create_count (e1 ++ e2) = (create_count e1 + create_count e2)%nat.
Proof. unfold create_count. by rewrite omap_app, length_app. Qed.

Lemma release_count_app (e1 e2 : list (Event F)) :
  release_count (e1 ++ e2) = (release_count e1 + release_count e2)%nat.
Proof. unfold release_count. by rewrite omap_app, length_app. Qed.

Lemma release_count_releases (l : list handle) :
  release_count (map (EvRelease (F := F)) l) = length l /\
  create_count (map (EvRelease (F := F)) l) = 0%nat.
Proof.
  unfold release_count, create_count.
  split; induction l as [|a l IH]; cbn; try done. by f_equal.
Qed.

(** A creation attempt on an empty resource set stores every object it
    creates: as many are held afterwards as were created. *)
Lemma Ensure_attempt_fresh h st d :
  resources st = no_resources ->
  s_UnityStreamingAssetsPath st <> "" ->
  g_D3D11Device st = Some d ->
  exists st' evs,
    EnsureD3D11ResourcesAreCreated h st = Some (true, st', evs) /\
    create_count evs = length (held (resources st')) /\
    release_count evs = 0%nat.
Proof.
  intros Hr Hp Hd.
  destruct st as [t p ty tp dev res n]. fields. subst dev res.
  unfold EnsureD3D11ResourcesAreCreated, no_resources.
  rewrite bind_gets; fields; rewrite bind_gets; fields.
  rewrite (path_nonempty _ Hp).
  unfold LoadFileIntoBuffer.
  destruct (fopen h (vertexShaderPath p)) as [[|v0 vbytes]|];
    destruct (fopen h (fragmentShaderPath p)) as [[|p0 pbytes]|]; mrun.
  5: destruct (device_creates h VertexShader (v0 :: vbytes)) eqn:Hvs; mrun;
     destruct (device_creates h PixelShader (p0 :: pbytes)) eqn:Hps; mrun.
  all: eexists; eexists; split; [reflexivity|].
  all: repeat match goal with
         | |- context [device_creates ?a ?b ?c] =>
             destruct (device_creates a b c)
         end; split; reflexivity.
Qed.

Lemma create_count_log (s : string) (l : list (Event F)) :
  create_count (EvLog s :: l) = create_count l.
Proof. reflexivity. Qed.

Lemma release_count_log (s : string) (l : list (Event F)) :
  release_count (EvLog s :: l) = release_count l.
Proof. reflexivity. Qed.

Lemma Ensure_accounting h st d :
  settled st -> good_host h -> g_D3D11Device st = Some d ->
  exists b st' evs,
    EnsureD3D11ResourcesAreCreated h st = Some (b, st', evs) /\
    same_globals st st' /\ settled st' /\
    (create_count evs + length (held (resources st)) =
     release_count evs + length (held (resources st')))%nat.
Proof.
  intros Hs Hg Hd.
  destruct (g_D3D11VertexShader (resources st)) as [a|] eqn:Hvs.
  { exists true, st, []. rewrite (Ensure_ready _ _ _ Hvs).
    repeat split; try done. }
  destruct (String.eqb_spec (s_UnityStreamingAssetsPath st) "") as [Hp|Hp].
  { exists false, st, []. rewrite (Ensure_no_path _ _ Hvs Hp).
    repeat split; try done. }
  destruct (Ensure_attempt h st d Hvs Hp Hd)
    as (st' & evs & HE & Hsame & _ & _ & _ & Hsome).
  destruct (Ensure_attempt_fresh h st d (Hs Hvs) Hp Hd)
    as (st'' & evs' & HE' & Hc & Hr).
  rewrite HE in HE'. injection HE' as <- <-.
  exists true, st', evs. split; [done|]. split; [done|].
  destruct (Hsome (Hg _ Hp)) as [Hvs' _]. split; [by intros ?|].
  rewrite Hc, Hr, (Hs Hvs). cbn. lia.
Qed.

(** Under good hosts every call keeps the books balanced: what it creates,
    plus what was held, is what it releases plus what is held after. *)
Lemma call_accounting r h (c : Call F) st :
  wf r st -> settled st -> GetRenderer h = r -> good_host h ->
  exists st' evs,
    call h c st = Some (tt, st', evs) /\ wf r st' /\ settled st' /\
    (create_count evs + length (held (resources st)) =
     release_count evs + length (held (resources st')))%nat.
Proof.
  intros Hwf Hs Hr Hg.
  destruct (call_wf r h c st Hwf Hr) as (st' & evs & Hc & Hwf' & _).
  exists st', evs. split; [done|]. split; [done|].
  assert (HI : forall st' evs,
    OnGraphicsDeviceEvent h kUnityGfxDeviceEventInitialize st =
      Some (tt, st', evs) ->
    settled st' /\
    (create_count evs + length (held (resources st)) =
     release_count evs + length (held (resources st')))%nat).
  { clear st' evs Hc Hwf'. intros st' evs.
    rewrite OnGraphicsDeviceEvent_Initialize.
    destruct (is_D3D11 (GetRenderer h)) eqn:HD.
    - set (st0 := set_Device _ _).
      destruct (Ensure_accounting h st0 (GetDevice h) Hs Hg eq_refl)
        as (b & st1 & e1 & HE & _ & Hs1 & Hcount).
      rewrite (bind_eq _ _ _ _ _ _ HE). cbn [prefixing mret M_ret app].
      intros [= <- <-]. split; [done|].
      rewrite app_nil_r. subst st0. fields.
      unfold create_count, release_count in *. cbn. lia.
    - cbn [prefixing app]. intros [= <- <-]. by split. }
  destruct c as [t|path|p| | |[]|eventID]; cbn [call] in Hc.
  - by injection Hc as <- <-.
  - by injection Hc as <- <-.
  - by injection Hc as <- <-.
  - by apply HI.
  - by injection Hc as <- <-.
  - by apply HI.
  - rewrite OnGraphicsDeviceEvent_Shutdown in Hc. cbv zeta in Hc.
    injection Hc as <- <-.
    destruct Hwf as [_ _ Hres].
    destruct (is_D3D11 (s_DeviceType st)) eqn:HD; fields.
    + split; [done|].
      destruct (release_count_releases (held (resources st))) as [Hrel Hcre].
      rewrite create_count_log, release_count_log, Hrel, Hcre.
      cbn. lia.
    + split; [done|]. cbn. lia.
  - rewrite (OnGraphicsDeviceEvent_reset h _ st
               "OnGraphicsDeviceEvent(BeforeReset).") in Hc by auto.
    by injection Hc as <- <-.
  - rewrite (OnGraphicsDeviceEvent_reset h _ st
               "OnGraphicsDeviceEvent(AfterReset).") in Hc by auto.
    by injection Hc as <- <-.
  - destruct (s_DeviceType st) eqn:Hty.
    + rewrite OnRenderEvent_Null in Hc by done. by injection Hc as <- <-.
    + destruct (g_D3D11Device st) as [d|] eqn:Hd;
        [|by destruct Hwf as [_ Hdev _]; destruct (Hdev Hty)].
      destruct (OnRenderEvent_D3D11 h eventID st d Hty Hd)
        as (b & st1 & evE & HE & HR).
      destruct (Ensure_accounting h st d Hs Hg Hd)
        as (b' & st1' & evE' & HE' & _ & Hs1 & Hcount).
      rewrite HE in HE'. injection HE' as <- <- <-.
      set (dflt := default_state_calls d (resources st)) in HR.
      set (rest := if b then _ else _) in HR.
      assert (st' = st1 /\ evs = dflt ++ evE ++ rest) as [-> ->]
        by (split; congruence).
      split; [done|].
      rewrite !create_count_app, !release_count_app.
      assert (create_count rest = 0%nat /\ release_count rest = 0%nat)
        as [-> ->].
      { subst rest. destruct b; [|done]. by destruct (g_TexturePointer st). }
      change (create_count dflt) with 0%nat.
      change (release_count dflt) with 0%nat.
      lia.
    + rewrite (OnRenderEvent_other h eventID st id) in Hc by done.
      by injection Hc as <- <-.
Qed.

(** Under good hosts no session leaks: at every point the objects created
    are those released and those still held; once nothing is held, as
    after Shutdown, as many were released as created. *)
Lemma run_accounting r (script : list (Host * Call F)) st :
  wf r st -> settled st -> hosted r script ->
  Forall (fun hc => good_host (fst hc)) script ->
  exists st' evs,
    run script st = Some (tt, st', evs) /\
    (create_count evs + length (held (resources st)) =
     release_count evs + length (held (resources st')))%nat.
Proof.
  revert st. induction script as [|[h c] script IH]; intros st Hwf Hs Hh Hg.
  { exists st, []. done. }
  apply Forall_cons in Hh as [Hr Hh]. apply Forall_cons in Hg as [Hg1 Hg].
  cbn [fst] in Hr, Hg1.
  destruct (call_accounting r h c st Hwf Hs Hr Hg1)
    as (st1 & e1 & Hc & Hwf1 & Hs1 & Hn1).
  destruct (IH st1 Hwf1 Hs1 Hh Hg) as (st2 & e2 & Hrun & Hn2).
  exists st2, (e1 ++ e2). split.
  - cbn [run]. rewrite (bind_eq _ _ _ _ _ _ Hc), Hrun. reflexivity.
  - rewrite create_count_app, release_count_app. lia.
Qed.

Lemma no_leak_under_good_hosts r (script : list (Host * Call F)) :
  hosted r script ->
  Forall (fun hc => good_host (fst hc)) script ->
  exists st evs,
    run script initial_state = Some (tt, st, evs) /\
    (resources st = no_resources -> create_count evs = release_count evs).
Proof.
  intros Hh Hg.
  destruct (run_accounting r script initial_state (wf_initial r)
              (fun _ => eq_refl) Hh Hg) as (st & evs & Hrun & Hn).
  exists st, evs. split; [done|]. intros Hno. rewrite Hno in Hn.
  cbn in Hn. lia.
Qed.

(** * Further properties of the plugin *)

(** ** Scripts *)

Lemma run_app (s1 s2 : list (Host * Call F)) st :
  run (s1 ++ s2) st = (run s1 ≫= fun _ => run s2) st.
Proof.
  revert st. induction s1 as [|[h c] s1 IH]; intros st.
  { cbn [app run]. by rewrite bind_ret. }
  cbn [app run]. rewrite bind_assoc.
  destruct (call h c st) as [[[[] st1] e1]|] eqn:Hc.
  - by rewrite !(bind_eq _ _ _ _ _ _ Hc), IH.
  - unfold mbind, M_bind. by rewrite Hc.
Qed.



(** X2.  [ReleaseD3D11Resources] releases each object the resource set holds
    once and leaves the eight pointers null; called again, it releases
    nothing and changes nothing. *)
Theorem Release_once_only st :
  exists st1,
    ReleaseD3D11Resources st =
      Some (tt, st1, map EvRelease (held (resources st))) /\
    resources st1 = no_resources /\
    ReleaseD3D11Resources st1 = Some (tt, st1, []).
Proof.
  exists (set_resources no_resources st).
  split; [apply Release_all|]. split; [done|].
  rewrite Release_all. by destruct st.
Qed.

(** X3.  From a state the plugin can reach under Direct3D 11, Shutdown
    followed by Initialize does what Initialize does on a fresh start in
    which the host has given the same time and path: same answer, same
    calls, same state. *)
Theorem restart_as_fresh h1 h st :
  reachable kUnityGfxRendererD3D11 st ->
  GetRenderer h = kUnityGfxRendererD3D11 ->
  exists st1 evs1,
    OnGraphicsDeviceEvent h1 kUnityGfxDeviceEventShutdown st =
      Some (tt, st1, evs1) /\
    OnGraphicsDeviceEvent h kUnityGfxDeviceEventInitialize st1 =
    OnGraphicsDeviceEvent h kUnityGfxDeviceEventInitialize (restarted st).
Proof.
  intros Hre Hr. apply Shutdown_Initialize_as_fresh; [|done].
  by apply reachable_wf.
Qed.

(** X4.  Under Direct3D 11, while the asset path is unset and no vertex
    shader exists, a render event sets the default state (with whatever
    state objects the plugin has) and nothing else: no draw, no texture
    upload, no creation, and the state is unchanged. *)
Theorem OnRenderEvent_not_ready h (eventID : Z) st d :
  s_DeviceType st = kUnityGfxRendererD3D11 ->
  g_D3D11Device st = Some d ->
  g_D3D11VertexShader (resources st) = None ->
  s_UnityStreamingAssetsPath st = "" ->
  OnRenderEvent h eventID st =
    Some (tt, st, default_state_calls d (resources st)).
Proof.
  intros Hty Hd Hvs Hp.
  destruct (OnRenderEvent_D3D11 h eventID st d Hty Hd)
    as (b & st' & evE & HE & ->).
  rewrite (Ensure_no_path h st Hvs Hp) in HE. injection HE as <- <- <-.
  by rewrite app_nil_l, app_nil_r.
Qed.

(** X5.  Under Direct3D 11, once the vertex shader exists and a texture is
    set, a render event issues the default state, the draw of the triangle
    with the world matrix of the current time, then reads the description of
    the texture and uploads, with a row pitch of four bytes a pixel, exactly
    the plasma picture of the texture's width and height at the current
    time; the state is unchanged. *)
Theorem OnRenderEvent_ready_frame h (eventID : Z) st d a d3dtex :
  s_DeviceType st = kUnityGfxRendererD3D11 ->
  g_D3D11Device st = Some d ->
  g_D3D11VertexShader (resources st) = Some a ->
  g_TexturePointer st = Some d3dtex ->
  0 <= fst (GetDesc h d3dtex) -> 0 <= snd (GetDesc h d3dtex) ->
  OnRenderEvent h eventID st =
    Some (tt, st,
          default_state_calls d (resources st) ++
          draw_calls d (resources st) (worldMatrix (g_Time st)) verts ++
          [ EvTextureGetDesc d3dtex;
            EvUpdateSubresource (Some d3dtex)
              (Pixels (plasma_image (g_Time st) (fst (GetDesc h d3dtex))
                         (snd (GetDesc h d3dtex))))
              (fst (GetDesc h d3dtex) * 4);
            EvContextRelease ]).
Proof.
  intros Hty Hd Hvs Htp Hw Hh.
  destruct (OnRenderEvent_D3D11 h eventID st d Hty Hd)
    as (b & st' & evE & HE & ->).
  rewrite (Ensure_ready h st a Hvs) in HE. injection HE as <- <- <-.
  rewrite Htp. cbv zeta.
  rewrite FillTextureFromCode_image; try done.
  unfold new_bytes. by rewrite length_replicate.
Qed.

(** ** More on resource creation *)

(** Start of a creation attempt on a state whose fields are explicit: the
    two tests pass, the answers of [fopen] are split into missing, empty and
    non-empty, and the computation runs as far as the device's answers
    allow. *)
Ltac ensure_attempt_cases h p Hp v0 vbytes p0 pbytes :=
  unfold EnsureD3D11ResourcesAreCreated;
  rewrite bind_gets; fields; rewrite bind_gets; fields;
  rewrite (path_nonempty _ Hp);
  unfold shaders_loadable, shader_files_loaded, shader_bytes,
    LoadFileIntoBuffer in *;
  destruct (fopen h (vertexShaderPath p)) as [[|v0 vbytes]|];
  destruct (fopen h (fragmentShaderPath p)) as [[|p0 pbytes]|]; mrun.

(** Resource creation issues nothing but creation calls and log lines. *)
Lemma Ensure_events_setup h st d b st' evs :
  g_D3D11Device st = Some d ->
  EnsureD3D11ResourcesAreCreated h st = Some (b, st', evs) ->
  Forall (fun e => is_setup e = true) evs.
Proof.
  intros Hd.
  destruct (g_D3D11VertexShader (resources st)) as [a|] eqn:Hvs.
  { rewrite (Ensure_ready _ _ _ Hvs). by intros [= <- <- <-]. }
  destruct (String.eqb_spec (s_UnityStreamingAssetsPath st) "") as [Hp|Hp].
  { rewrite (Ensure_no_path _ _ Hvs Hp). by intros [= <- <- <-]. }
  destruct st as [t p ty tp dev [vb cb vs ps il rs bs ds] n].
  fields. subst dev vs.
  ensure_attempt_cases h p Hp v0 vbytes p0 pbytes.
  5: destruct (device_creates h VertexShader (v0 :: vbytes)) eqn:Hvs; mrun;
     destruct (device_creates h PixelShader (p0 :: pbytes)) eqn:Hps; mrun.
  all: intros [= <- <- <-]; repeat constructor.
Qed.

(** X6.  When both shader files load but the device rejects the vertex
    shader, the call logs that failure, still asks for the pixel shader and
    the three state objects, asks for no input layout, returns true and
    leaves the vertex shader null (so that the next call starts over). *)
Theorem Ensure_vertex_shader_rejected h st d :
  g_D3D11VertexShader (resources st) = None ->
  s_UnityStreamingAssetsPath st <> "" ->
  g_D3D11Device st = Some d ->
  shader_files_loaded h (s_UnityStreamingAssetsPath st) = true ->
  device_creates h VertexShader
    (shader_bytes h (vertexShaderPath (s_UnityStreamingAssetsPath st)))
    = false ->
  exists st' evs,
    EnsureD3D11ResourcesAreCreated h st = Some (true, st', evs) /\
    g_D3D11VertexShader (resources st') = None /\
    g_D3D11InputLayout (resources st') = g_D3D11InputLayout (resources st) /\
    omap creation_call evs =
      [VertexBuffer; ConstantBuffer; VertexShader; PixelShader;
       RasterizerState; DepthStencilState; BlendState] /\
    In ("Failed to create vertex shader." ++ nl)%string (log_lines evs).
Proof.
  intros Hvs Hp Hd Hl Hrej.
  destruct st as [t p ty tp dev [vb cb vs ps il rs bs ds] n].
  fields. subst dev vs.
  ensure_attempt_cases h p Hp v0 vbytes p0 pbytes; try discriminate Hl.
  rewrite Hrej. mrun.
  destruct (device_creates h PixelShader (p0 :: pbytes)); mrun.
  all: eexists; eexists; split; [reflexivity|].
  all: repeat split; try done; simpl; auto 10.
Qed.

(** X7.  When the device makes the vertex shader but rejects the pixel
    shader, the call logs that failure and returns true with the pixel
    shader null; since the vertex shader now exists, no later call, under
    any host, creates anything: the pixel shader stays null until
    Shutdown. *)
Theorem Ensure_pixel_shader_rejected h (hs : list Host) st d :
  g_D3D11VertexShader (resources st) = None ->
  s_UnityStreamingAssetsPath st <> "" ->
  g_D3D11Device st = Some d ->
  shaders_loadable h (s_UnityStreamingAssetsPath st) = true ->
  device_creates h PixelShader
    (shader_bytes h (fragmentShaderPath (s_UnityStreamingAssetsPath st)))
    = false ->
  exists st' evs,
    EnsureD3D11ResourcesAreCreated h st = Some (true, st', evs) /\
    g_D3D11VertexShader (resources st') <> None /\
    g_D3D11PixelShader (resources st') = None /\
    log_lines evs = [("Failed to create pixel shader." ++ nl)%string] /\
    ensure_each hs st' = Some (replicate (length hs) true, st', []).
Proof.
  intros Hvs Hp Hd Hl Hrej.
  destruct st as [t p ty tp dev [vb cb vs ps il rs bs ds] n].
  fields. subst dev vs.
  ensure_attempt_cases h p Hp v0 vbytes p0 pbytes; try discriminate Hl.
  cbn [nonempty length Nat.ltb Nat.leb andb] in Hl.
  rewrite Hl, Hrej. mrun.
  eexists; eexists; split; [reflexivity|].
  split; [done|]. split; [done|]. split; [done|].
  eapply ensure_each_ready. fields. reflexivity.
Qed.

(** X8.  A vertex shader file that exists but is empty: [LoadFileIntoBuffer]
    reports it as loaded and logs nothing, yet the creation treats it as a
    failure to load: no shader and no input layout are asked for, the only
    log lines are the general load failure (after the line for the pixel
    shader file, should that one be missing), the vertex shader stays null
    and the call returns true. *)
Theorem Ensure_empty_shader_file h st d :
  g_D3D11VertexShader (resources st) = None ->
  s_UnityStreamingAssetsPath st <> "" ->
  g_D3D11Device st = Some d ->
  fopen h (vertexShaderPath (s_UnityStreamingAssetsPath st)) = Some [] ->
  LoadFileIntoBuffer h (vertexShaderPath (s_UnityStreamingAssetsPath st)) []
    st = Some ((true, []), st, []) /\
  exists st' evs,
    EnsureD3D11ResourcesAreCreated h st = Some (true, st', evs) /\
    g_D3D11VertexShader (resources st') = None /\
    omap creation_call evs =
      [VertexBuffer; ConstantBuffer;
       RasterizerState; DepthStencilState; BlendState] /\
    log_lines evs =
      match fopen h (fragmentShaderPath (s_UnityStreamingAssetsPath st)) with
      | Some _ => []
      | None =>
          [("Failed to find " ++
            fragmentShaderPath (s_UnityStreamingAssetsPath st))%string]
      end ++ [("Failed to load vertex or pixel shader." ++ nl)%string].
Proof.
  intros Hvs Hp Hd Hf.
  split; [unfold LoadFileIntoBuffer; by rewrite Hf|].
  destruct st as [t p ty tp dev [vb cb vs ps il rs bs ds] n].
  fields. subst dev vs.
  unfold EnsureD3D11ResourcesAreCreated.
  rewrite bind_gets; fields; rewrite bind_gets; fields.
  rewrite (path_nonempty _ Hp). unfold LoadFileIntoBuffer. rewrite Hf.
  destruct (fopen h (fragmentShaderPath p)) as [[|p0 pbytes]|]; mrun.
  all: eexists; eexists; split; [reflexivity|]; done.
Qed.

(** ** What the calls of a run can be *)

Lemma count_app (p : Event F -> bool) (e1 e2 : list (Event F)) :
  count p (e1 ++ e2) = (count p e1 + count p e2)%nat.
Proof. unfold count. by rewrite filter_app, length_app. Qed.

Lemma count_none (p q : Event F -> bool) (evs : list (Event F)) :
  (forall e, q e = true -> p e = false) ->
  Forall (fun e => q e = true) evs -> count p evs = 0%nat.
Proof.
  intros Hpq Hq. unfold count.
  induction Hq as [|e evs He _ IH]; [done|].
  rewrite filter_cons. destruct (decide (p e = true)) as [Hp|]; [|done].
  rewrite (Hpq e He) in Hp. discriminate.
Qed.

Lemma setup_lifecycle (evs : list (Event F)) :
  Forall (fun e => is_setup e = true) evs ->
  Forall (fun e => is_lifecycle e = true) evs.
Proof.
  intros H. eapply Forall_impl; [exact H|].
  intros e He. unfold is_lifecycle. by rewrite He.
Qed.

(** Every call but the render event issues lifecycle calls only. *)
Lemma lifecycle_calls r h (c : Call F) st st' evs :
  wf r st -> GetRenderer h = r -> is_render_event c = false ->
  call h c st = Some (tt, st', evs) ->
  Forall (fun e => is_lifecycle e = true) evs.
Proof.
  intros Hwf Hr Hc.
  assert (HI : OnGraphicsDeviceEvent h kUnityGfxDeviceEventInitialize st =
               Some (tt, st', evs) ->
               Forall (fun e => is_lifecycle e = true) evs).
  { rewrite OnGraphicsDeviceEvent_Initialize.
    destruct (is_D3D11 (GetRenderer h)).
    - set (st0 := set_Device _ _).
      destruct (Ensure_total h st0 (GetDevice h) eq_refl)
        as (b & st1 & e1 & HE & _).
      rewrite (bind_eq _ _ _ _ _ _ HE). cbn [prefixing mret M_ret app].
      intros [= <- <-]. constructor; [done|].
      rewrite app_nil_r. apply setup_lifecycle.
      by eapply (Ensure_events_setup h st0).
    - cbn [prefixing app]. intros [= <- <-]. by repeat constructor. }
  destruct c as [t|path|p| | |[]|eventID]; cbn [call]; try discriminate Hc.
  - by intros [= <- <-].
  - by intros [= <- <-].
  - by intros [= <- <-].
  - done.
  - by intros [= <- <-].
  - done.
  - clear HI. rewrite OnGraphicsDeviceEvent_Shutdown. cbv zeta.
    destruct (is_D3D11 (s_DeviceType st)); intros [= <- <-];
      (constructor; [done|]); [|done].
    induction (held (resources st)); by constructor.
  - rewrite (OnGraphicsDeviceEvent_reset h _ st
               "OnGraphicsDeviceEvent(BeforeReset).") by auto.
    intros [= <- <-]. by repeat constructor.
  - rewrite (OnGraphicsDeviceEvent_reset h _ st
               "OnGraphicsDeviceEvent(AfterReset).") by auto.
    intros [= <- <-]. by repeat constructor.
Qed.

Lemma context_balanced_call r h (c : Call F) st st' evs :
  wf r st -> GetRenderer h = r ->
  call h c st = Some (tt, st', evs) ->
  count takes_context evs = count releases_context evs.
Proof.
  intros Hwf Hr Hc.
  destruct (is_render_event c) eqn:Hrender.
  - destruct c; try discriminate Hrender. cbn [call] in Hc.
    destruct (s_DeviceType st) eqn:Hty.
    + rewrite OnRenderEvent_Null in Hc by done. by injection Hc as <- <-.
    + destruct (g_D3D11Device st) as [d|] eqn:Hd;
        [|by destruct Hwf as [_ Hdev _]; destruct (Hdev Hty)].
      destruct (OnRenderEvent_D3D11 h eventID st d Hty Hd)
        as (b & st1 & evE & HE & HR).
      pose proof (Ensure_events_setup h st d b st1 evE Hd HE) as Hsetup.
      set (rest := if b then _ else _) in HR.
      assert (evs = default_state_calls d (resources st) ++ evE ++ rest)
        as -> by congruence.
      rewrite !count_app.
      rewrite (count_none takes_context is_setup evE),
              (count_none releases_context is_setup evE);
        [|by intros []|done|by intros []|done].
      subst rest. destruct b; [|done].
      by destruct (g_TexturePointer st).
    + rewrite (OnRenderEvent_other h eventID st id) in Hc by done.
      by injection Hc as <- <-.
  - pose proof (lifecycle_calls r h c st st' evs Hwf Hr Hrender Hc) as Hl.
    rewrite (count_none takes_context is_lifecycle evs),
            (count_none releases_context is_lifecycle evs);
      [done|by intros []|done|by intros []|done].
Qed.

(** X9.  Whatever the host does from a state the plugin can reach, the
    plugin gives back every reference to the immediate context it takes:
    over any run there are as many [GetImmediateContext] calls as releases
    of the context. *)
Theorem context_references_balanced r (script : list (Host * Call F)) st :
  reachable r st -> hosted r script ->
  exists st' evs,
    run script st = Some (tt, st', evs) /\
    count takes_context evs = count releases_context evs.
Proof.
  intros Hre%reachable_wf. revert st Hre.
  induction script as [|[h c] script IH]; intros st Hwf Hh.
  { by exists st, []. }
  apply Forall_cons in Hh as [Hr Hh]. cbn [fst] in Hr.
  destruct (call_wf r h c st Hwf Hr) as (st1 & e1 & Hc & Hwf1 & _).
  destruct (IH st1 Hwf1 Hh) as (st2 & e2 & Hrun & Hn).
  exists st2, (e1 ++ e2). split.
  - cbn [run]. rewrite (bind_eq _ _ _ _ _ _ Hc), Hrun. reflexivity.
  - rewrite !count_app, Hn.
    by rewrite (context_balanced_call r h c st st1 e1 Hwf Hr Hc).
Qed.



(** ** The session of the managed script *)

Lemma creation_call_setup_free (evs : list (Event F)) :
  Forall (fun e => creation_call e = None) evs -> omap creation_call evs = [].
Proof.
  induction 1 as [|e evs He _ IH]; [done|]. cbn. by rewrite He.
Qed.

(** One turn of [CallPluginAtEndOfFrames] on a plugin that has its device
    and path: one draw, one upload if a texture is set, and the creation of
    the resource set if it was still missing. *)
Lemma frame_step h (t : F) st d :
  s_DeviceType st = kUnityGfxRendererD3D11 ->
  g_D3D11Device st = Some d ->
  s_UnityStreamingAssetsPath st <> "" ->
  shaders_loadable h (s_UnityStreamingAssetsPath st) = true ->
  exists st' evs,
    run [(h, CallSetTime t); (h, CallRenderEvent 1)] st =
      Some (tt, st', evs) /\
    s_DeviceType st' = kUnityGfxRendererD3D11 /\
    g_D3D11Device st' = Some d /\
    s_UnityStreamingAssetsPath st' = s_UnityStreamingAssetsPath st /\
    g_TexturePointer st' = g_TexturePointer st /\
    g_Time st' = t /\
    g_D3D11VertexShader (resources st') <> None /\
    count is_draw evs = 1%nat /\
    count is_upload evs =
      (if g_TexturePointer st is Some _ then 1 else 0)%nat /\
    omap creation_call evs =
      if g_D3D11VertexShader (resources st) is Some _ then [] else all_kinds.
Proof.
  intros Hty Hd Hp Hok.
  cbn [run call]. unfold SetTimeFromUnity. rewrite bind_modify.
  set (st0 := set_Time t st).
  assert (Hty0 : s_DeviceType st0 = kUnityGfxRendererD3D11) by done.
  assert (Hd0 : g_D3D11Device st0 = Some d) by done.
  destruct (OnRenderEvent_D3D11 h 1 st0 d Hty0 Hd0)
    as (b & st' & evE & HE & HR).
  pose proof (Ensure_events_setup h st0 d b st' evE Hd0 HE) as Hsetup.
  assert (Hb : b = true /\ same_globals st0 st' /\
               g_D3D11VertexShader (resources st') <> None /\
               omap creation_call evE =
                 if g_D3D11VertexShader (resources st) is Some _
                 then [] else all_kinds).
  { destruct (g_D3D11VertexShader (resources st)) as [a|] eqn:Hvs.
    - rewrite (Ensure_ready h st0 a Hvs) in HE. injection HE as <- <- <-.
      split; [done|]. split; [by unfold same_globals|]. split; [|done].
      subst st0. fields. by rewrite Hvs.
    - destruct (Ensure_attempt h st0 d Hvs Hp Hd0)
        as (st1 & e1 & HE1 & Hg & _ & _ & _ & Hsome).
      rewrite HE in HE1. injection HE1 as -> <- <-.
      destruct (Hsome Hok) as [? ?].
      split; [done|]. split; [done|]. by split. }
  destruct Hb as (-> & (Ht & Hp' & Hty' & Htp' & Hd') & Hvs' & Hcre).
  rewrite (bind_eq _ _ _ _ _ _ HR). cbn [prefixing mret M_ret].
  eexists _, _. split; [reflexivity|].
  subst st0. fields.
  split; [congruence|]. split; [congruence|]. split; [congruence|].
  split; [congruence|]. split; [congruence|]. split; [done|].
  rewrite app_nil_r, !count_app, !omap_app, Hcre.
  rewrite (count_none is_draw is_setup evE),
          (count_none is_upload is_setup evE);
    [|by intros []|done|by intros []|done].
  destruct (g_TexturePointer st);
    (split; [done|]; split; [done|]); cbn; by rewrite app_nil_r.
Qed.

Lemma frames_run h (times : list F) :
  forall st d,
    s_DeviceType st = kUnityGfxRendererD3D11 ->
    g_D3D11Device st = Some d ->
    s_UnityStreamingAssetsPath st <> "" ->
    shaders_loadable h (s_UnityStreamingAssetsPath st) = true ->
    exists st' evs,
      run (map (fun c => (h, c)) (CallPluginAtEndOfFrames times)) st =
        Some (tt, st', evs) /\
      g_TexturePointer st' = g_TexturePointer st /\
      count is_draw evs = length times /\
      count is_upload evs =
        (if g_TexturePointer st is Some _ then length times else 0)%nat /\
      omap creation_call evs =
        match times with
        | [] => []
        | _ => if g_D3D11VertexShader (resources st) is Some _
               then [] else all_kinds
        end.
Proof.
  induction times as [|t times IH]; intros st d Hty Hd Hp Hok.
  { exists st, []. repeat split; try done. by destruct (g_TexturePointer st). }
  destruct (frame_step h t st d Hty Hd Hp Hok)
    as (st1 & e1 & Hrun1 & Hty1 & Hd1 & Hp1 & Htp1 & _ & Hvs1 & Hdr1 & Hup1
        & Hcr1).
  rewrite <- Hp1 in Hp, Hok.
  destruct (IH st1 d Hty1 Hd1 Hp Hok)
    as (st2 & e2 & Hrun2 & Htp2 & Hdr2 & Hup2 & Hcr2).
  exists st2, (e1 ++ e2).
  change (CallPluginAtEndOfFrames (t :: times))
    with ([CallSetTime t; CallRenderEvent 1] ++ CallPluginAtEndOfFrames times).
  rewrite map_app, run_app. cbn [map].
  rewrite (bind_eq _ _ _ _ _ _ Hrun1), Hrun2. cbn [prefixing].
  split; [done|]. split; [congruence|].
  rewrite !count_app, omap_app, Hdr1, Hdr2, Hup1, Hup2, Hcr1, Hcr2, Htp1.
  split; [done|]. split; [by destruct (g_TexturePointer st)|].
  destruct (g_D3D11VertexShader (resources st1)); [|done].
  destruct times; by rewrite app_nil_r.
Qed.

(** X11.  The session the managed script runs: the plugin is loaded under a
    Direct3D 11 host, the script passes a path under which the shaders load
    and a texture, then drives any number of frames.  Nothing faults; every
    frame issues one draw and one upload of the texture; the resource set is
    created once, by the first frame (the Initialize event of the load
    comes before the path is known and creates nothing). *)
Theorem session_draws_every_frame h (path : string) (d3dtex : handle)
    (times : list F) :
  GetRenderer h = kUnityGfxRendererD3D11 ->
  path <> "" ->
  shaders_loadable h path = true ->
  exists st evs,
    run (session h path (Some d3dtex) times) initial_state =
      Some (tt, st, evs) /\
    count is_draw evs = length times /\
    count is_upload evs = length times /\
    omap creation_call evs =
      match times with [] => [] | _ => all_kinds end.
Proof.
  intros Hr Hp Hok. unfold session, Start.
  cbn [map run call]. unfold UnityPluginLoad.
  erewrite bind_eq; last first.
  { rewrite OnGraphicsDeviceEvent_Initialize, Hr. cbn [is_D3D11].
    erewrite bind_eq; [|by apply Ensure_no_path].
    cbn [prefixing mret M_ret app]. reflexivity. }
  cbn [prefixing mret M_ret app].
  unfold SetUnityStreamingAssetsPath, SetTextureFromUnity.
  rewrite bind_modify, bind_modify.
  set (st0 := set_TexturePointer _ _).
  destruct (frames_run h times st0 (GetDevice h))
    as (st & evs & Hrun & _ & Hdr & Hup & Hcr); try done.
  rewrite Hrun. cbn [prefixing].
  eexists _, _. split; [reflexivity|].
  change (EvLog ?s :: ?l ++ evs) with ([EvLog (F := F) s] ++ evs).
  rewrite !count_app, omap_app, Hdr, Hup, Hcr.
  repeat split.
Qed.

(** ** More on the texture fill *)

Lemma fill_rows_padded (pads : list (list Z)) :
  forall (rows : list (list Z)) (y width : Z) (pad : nat) (t : F)
         (pre post : list Z),
    0 <= width ->
    length rows = length pads ->
    Forall (fun r => length r = (4 * Z.to_nat width)%nat) rows ->
    Forall (fun p => length p = pad) pads ->
    fill_rows (length rows) y width (width * 4 + Z.of_nat pad) t
      (Z.of_nat (length pre))
      (pre ++ concat (zip_with app rows pads) ++ post) =
    pre ++
    concat (zip_with app
              (map (fun y => plasma_row y width t)
                   (seqZ y (Z.of_nat (length rows)))) pads) ++ post.
Proof.
  induction pads as [|p pads IH];
    intros rows y width pad t pre post Hw Hlen Hrows Hpads.
  { destruct rows; [done|discriminate]. }
  destruct rows as [|r rows]; [discriminate|].
  apply Forall_cons in Hrows as [Hr Hrows].
  apply Forall_cons in Hpads as [Hp Hpads].
  cbn [length fill_rows zip_with concat]. cbv zeta.
  rewrite <- !app_assoc.
  rewrite fill_row_spec by done.
  rewrite Z2Nat.id by done. fold (plasma_row y width t).
  assert (Hrowlen : length (plasma_row y width t) = (4 * Z.to_nat width)%nat).
  { pose proof (fill_row_spec (Z.to_nat width) 0 y t [] r [] Hr) as E.
    apply (f_equal length) in E. cbn [app] in E.
    rewrite !app_nil_r, Z2Nat.id in E by done.
    unfold plasma_row. rewrite <- E. clear E.
    assert (forall k x q m, length (fill_row k x y t q m) = length m) as L.
    { clear. induction k; intros; cbn [fill_row]; [done|]. cbv zeta.
      rewrite IHk. unfold store.
      repeat (case_match; rewrite ?length_insert); done. }
    by rewrite L. }
  replace (Z.of_nat (length pre) + (width * 4 + Z.of_nat pad))
    with (Z.of_nat (length (pre ++ plasma_row y width t ++ p)))
    by (rewrite !length_app, Hrowlen, Hp; lia).
  replace (pre ++ plasma_row y width t ++ p ++
           concat (zip_with app rows pads) ++ post)
    with ((pre ++ plasma_row y width t ++ p) ++
          concat (zip_with app rows pads) ++ post)
    by (by rewrite <- !app_assoc).
  rewrite IH; [|done|by injection Hlen|done|done].
  rewrite seqZ_S. cbn [map zip_with concat].
  by rewrite <- !app_assoc.
Qed.

(** X12.  Rows wider than the picture: on a buffer of rows of [4 * width]
    pixel bytes, each followed by [pad] bytes, with the stride
    [width * 4 + pad], [FillTextureFromCode] replaces the pixel bytes of
    every row by the plasma of that row and leaves every padding byte as it
    was. *)
Theorem FillTextureFromCode_keeps_padding (time : F) (width : Z) (pad : nat)
    (rows pads : list (list Z)) :
  0 <= width ->
  length rows = length pads ->
  Forall (fun r => length r = (4 * Z.to_nat width)%nat) rows ->
  Forall (fun p => length p = pad) pads ->
  FillTextureFromCode time width (Z.of_nat (length rows))
    (width * 4 + Z.of_nat pad) (concat (zip_with app rows pads)) =
  concat (zip_with app
            (map (fun y => plasma_row y width (f_mul time (f_lit 4)))
                 (seqZ 0 (Z.of_nat (length rows)))) pads).
Proof.
  intros Hw Hlen Hrows Hpads. unfold FillTextureFromCode. cbv zeta.
  rewrite Nat2Z.id.
  pose proof (fill_rows_padded pads rows 0 width pad
                (f_mul time (f_lit 4)) [] [] Hw Hlen Hrows Hpads) as E.
  cbn [app length] in E. by rewrite !app_nil_r in E.
Qed.

Lemma fill_rows_no_columns (n : nat) :
  forall (y width stride : Z) (t : F) (dst : Z) (mem : list Z),
    width <= 0 -> fill_rows n y width stride t dst mem = mem.
Proof.
  induction n as [|n IH]; intros y width stride t dst mem Hw; [done|].
  cbn [fill_rows]. cbv zeta.
  replace (Z.to_nat width) with 0%nat by lia. cbn [fill_row]. by apply IH.
Qed.

(** X13.  A picture without pixels: when the width or the height is zero or
    negative, neither loop body runs and [FillTextureFromCode] returns the
    buffer as it is, whatever the stride. *)
Theorem FillTextureFromCode_no_pixels (time : F) (width height stride : Z)
    (dst : list Z) :
  width <= 0 \/ height <= 0 ->
  FillTextureFromCode time width height stride dst = dst.
Proof.
  intros [Hw|Hh]; unfold FillTextureFromCode; cbv zeta.
  - by apply fill_rows_no_columns.
  - by replace (Z.to_nat height) with 0%nat by lia.
Qed.

(** ** More on the accounting of objects *)


End Proofs.

(** * The world matrix over the reals *)

Section WorldMatrix.

Local Open Scope R_scope.

Lemma PI_gt_2 : 2 < PI.
Proof. pose proof PI2_1. lra. Qed.

Lemma Rabs_sin_le (x : R) : Rabs (sin x) <= Rabs x.
Proof.
  assert (Hpos : forall y, 0 < y -> Rabs (sin y) <= y).
  { intros y Hy. apply Rabs_le. split; [|left; by apply sin_lt_x].
    destruct (Rle_dec y PI) as [Hle|Hgt].
    - pose proof (sin_ge_0 y (Rlt_le _ _ Hy) Hle). lra.
    - pose proof (SIN_bound y). pose proof PI_gt_2. lra. }
  destruct (Rtotal_order x 0) as [Hneg|[->|Hp]].
  - rewrite <- (Ropp_involutive x) at 1. rewrite sin_neg, Rabs_Ropp.
    rewrite (Rabs_left x) by done. apply Hpos. lra.
  - rewrite sin_0. apply Rle_refl.
  - rewrite (Rabs_right x) by lra. by apply Hpos.
Qed.

Lemma sin_near_PI (t : R) : Rabs (sin t) <= Rabs (t - PI).
Proof.
  replace t with ((t - PI) + PI) at 1 by lra.
  rewrite neg_sin, Rabs_Ropp. apply Rabs_sin_le.
Qed.

Lemma cos_near_PI (t : R) : Rabs (cos t + 1) <= Rabs (t - PI).
Proof.
  replace t with ((t - PI) + PI) at 1 by lra.
  rewrite neg_cos. set (u := t - PI).
  replace u with (2 * (u / 2)) at 1 by lra. rewrite cos_2a_sin.
  pose proof (Rabs_sin_le (u / 2)) as Hs.
  pose proof (SIN_bound (u / 2)) as Hb.
  assert (Hu : Rabs (u / 2) = Rabs u / 2).
  { unfold Rdiv. rewrite Rabs_mult, (Rabs_right (/ 2)); lra. }
  rewrite Hu in Hs.
  assert (Ha : Rabs (sin (u / 2)) <= 1) by (apply Rabs_le; lra).
  pose proof (Rabs_pos (sin (u / 2))) as H0.
  replace (- (1 - 2 * sin (u / 2) * sin (u / 2)) + 1)
    with (2 * (sin (u / 2) * sin (u / 2))) by lra.
  rewrite Rabs_mult, (Rabs_right 2), Rabs_mult by lra.
  nra.
Qed.

(** C4, over the real-number reading of the float operations.  The world
    matrix is the rotation about the z axis by the angle [time] in its upper
    left block, the identity on the z row, and the row (0, 0, 0.7, 1) for
    the depth axis.  At time 0 the rotation block is the identity; for a time
    within [eps] of pi it is within [eps] of minus the identity, entry by
    entry (exactly minus the identity at pi itself). *)
Theorem worldMatrix_rotation (t eps : R) :
  Rabs (t - PI) <= eps ->
  worldMatrix t =
    [ cos t; - sin t; 0; 0;
      sin t; cos t; 0; 0;
      0; 0; 1; 0;
      0; 0; 7 / 10; 1 ] /\
  worldMatrix 0 =
    [ 1; 0; 0; 0;
      0; 1; 0; 0;
      0; 0; 1; 0;
      0; 0; 7 / 10; 1 ] /\
  Rabs (entry (worldMatrix t) 0 0 - -1) <= eps /\
  Rabs (entry (worldMatrix t) 0 1 - 0) <= eps /\
  Rabs (entry (worldMatrix t) 1 0 - 0) <= eps /\
  Rabs (entry (worldMatrix t) 1 1 - -1) <= eps.
Proof.
  intros Heps.
  assert (H07 : Q2R 0.7 = 7 / 10).
  { unfold Q2R. cbn. lra. }
  unfold worldMatrix, entry. cbn [f_of_int f_lit f_neg sinf cosf R_FloatOps nth
    Nat.add Nat.mul]. rewrite H07, sin_0, cos_0, Ropp_0.
  repeat split; try reflexivity.
  - replace (cos t - -1) with (cos t + 1) by lra.
    eapply Rle_trans; [apply cos_near_PI|done].
  - replace (- sin t - 0) with (- sin t) by lra. rewrite Rabs_Ropp.
    eapply Rle_trans; [apply sin_near_PI|done].
  - replace (sin t - 0) with (sin t) by lra.
    eapply Rle_trans; [apply sin_near_PI|done].
  - replace (cos t - -1) with (cos t + 1) by lra.
    eapply Rle_trans; [apply cos_near_PI|done].
Qed.

End WorldMatrix.

(** * The plugin on concrete inputs *)

Section Evaluation.

Import Examples.


(** C1, counterexample to the claim as stated: the path is set, no shader
    file can be opened, no vertex shader exists, and the call returns
    true. *)
Lemma Ensure_true_without_shader_files :
  s_UnityStreamingAssetsPath st_path_set <> "" /\
  fopen host_no_files (vertexShaderPath "/assets") = None /\
  fopen host_no_files (fragmentShaderPath "/assets") = None /\
  g_D3D11VertexShader (resources st_path_set) = None /\
  (fun r => fst (fst r)) <$>
    EnsureD3D11ResourcesAreCreated host_no_files st_path_set = Some true.
Proof. repeat split; try reflexivity. discriminate. Qed.

Lemma Ensure_ready_check_witness :
  g_D3D11VertexShader (resources st_path_set) = None /\
  g_D3D11Device st_path_set = Some 100%positive /\
  s_UnityStreamingAssetsPath st_path_set <> "" /\
  shader_files_loaded host_no_files "/assets" = false /\
  shaders_loadable host_with_shaders "/assets" = true /\
  exists st' evs,
    EnsureD3D11ResourcesAreCreated host_no_files st_path_set =
      Some (true, st', evs) /\
    g_D3D11VertexShader (resources st') = None /\
    In (EvLog ("Failed to load vertex or pixel shader." ++ nl)%string) evs /\
    exists st'' evs',
      EnsureD3D11ResourcesAreCreated host_with_shaders st' =
        Some (true, st'', evs') /\
      g_D3D11VertexShader (resources st'') <> None.
Proof.
  assert (Hp : s_UnityStreamingAssetsPath st_path_set <> "")
    by discriminate.
  split; [reflexivity|]. split; [reflexivity|]. split; [exact Hp|].
  split; [reflexivity|]. split; [reflexivity|].
  destruct (Ensure_ready_check host_no_files host_with_shaders st_path_set
              100%positive eq_refl eq_refl) as [_ H].
  destruct (H Hp eq_refl) as (st' & evs & HE & Hvs & Hlog & Hretry).
  exists st', evs. repeat split; try assumption.
  exact (Hretry eq_refl).
Defined.

(** C2, the failing run: the shader files are missing, two frames are
    rendered, the device shuts down.  Each frame creates the two buffers and
    the three state objects anew over the pointers of the previous attempt;
    Shutdown releases only the last five.  Ten objects were created, five
    released. *)
Theorem retry_leaks_resources :
  create_release_counts (run frames_without_shaders initial_state) =
    Some (10%nat, 5%nat) /\
  create_release_counts (run frames_with_shaders initial_state) =
    Some (8%nat, 8%nat).
Proof. split; reflexivity. Qed.

Lemma Ensure_idempotent_witness :
  g_D3D11VertexShader (resources st_path_set) = None /\
  s_UnityStreamingAssetsPath st_path_set <> "" /\
  g_D3D11Device st_path_set = Some 100%positive /\
  shaders_loadable host_with_shaders "/assets" = true /\
  exists st1 evs1,
    EnsureD3D11ResourcesAreCreated host_with_shaders st_path_set =
      Some (true, st1, evs1) /\
    omap creation_call evs1 = all_kinds /\
    ensure_each [host_with_shaders; host_with_shaders; host_no_files]
      st_path_set = Some ([true; true; true], st1, evs1).
Proof.
  assert (Hp : s_UnityStreamingAssetsPath st_path_set <> "")
    by discriminate.
  split; [reflexivity|]. split; [exact Hp|]. split; [reflexivity|].
  split; [reflexivity|].
  exact (proj2 (Ensure_idempotent host_with_shaders
                  [host_with_shaders; host_no_files] st_path_set 100%positive
                  eq_refl Hp eq_refl eq_refl)).
Defined.

Lemma worldMatrix_rotation_witness :
  (Rabs (PI - PI) <= 0)%R /\
  (Rabs (entry (worldMatrix PI) 0 0 - -1) <= 0)%R /\
  (Rabs (entry (worldMatrix PI) 1 1 - -1) <= 0)%R.
Proof.
  assert (H : (Rabs (PI - PI) <= 0)%R).
  { rewrite Rminus_diag, Rabs_R0. apply Rle_refl. }
  split; [exact H|].
  destruct (worldMatrix_rotation PI 0 H) as (_ & _ & H00 & _ & _ & H11).
  split; assumption.
Defined.

Lemma FillTextureFromCode_plasma_witness :
  0 <= 2 /\ 0 <= 1 /\
  length [9; 9; 9; 9; 9; 9; 9; 9] = Z.to_nat (2 * 1 * 4) /\
  FillTextureFromCode 0%R 2 1 (2 * 4) [9; 9; 9; 9; 9; 9; 9; 9] =
  plasma_image 0%R 2 1.
Proof.
  split; [lia|]. split; [lia|]. split; [reflexivity|].
  apply (FillTextureFromCode_plasma 0%R 2 1); [lia|lia|reflexivity].
Defined.

Lemma OnRenderEvent_without_backend_witness :
  s_DeviceType (initial_state (F := R)) = kUnityGfxRendererNull /\
  OnRenderEvent host_with_shaders 1 (initial_state (F := R)) =
    Some (tt, initial_state, []) /\
  run [ (host_with_shaders, CallRenderEvent 1);
        (host_no_files, CallRenderEvent 2) ] (initial_state (F := R)) =
    Some (tt, initial_state, []).
Proof.
  split; [reflexivity|].
  apply (OnRenderEvent_without_backend host_with_shaders 1
           [ (host_with_shaders, CallRenderEvent 1);
             (host_no_files, CallRenderEvent 2) ] initial_state).
  - reflexivity.
  - repeat constructor.
Defined.

Lemma st_ready_reachable : reachable kUnityGfxRendererD3D11 st_ready.
Proof.
  exists st_ready_script, st_ready_events.
  split; [repeat constructor|reflexivity].
Defined.

Lemma null_texture_skips_fill_witness :
  reachable kUnityGfxRendererD3D11 st_ready /\
  exists st1 evs1 st2 evs2,
    (SetTextureFromUnity None ≫= fun _ =>
       run [ (host_with_shaders, CallSetTime 1%R);
             (host_with_shaders, CallRenderEvent 1) ]) st_ready =
      Some (tt, st1, evs1) /\
    g_TexturePointer st1 = None /\
    OnRenderEvent host_with_shaders 2 st1 = Some (tt, st2, evs2) /\
    Forall (fun e => is_texture_event e = false) evs2.
Proof.
  split; [exact st_ready_reachable|].
  destruct (null_texture_skips_fill kUnityGfxRendererD3D11
              [ (host_with_shaders, CallSetTime 1%R);
                (host_with_shaders, CallRenderEvent 1) ]
              host_with_shaders 2 st_ready st_ready_reachable)
    as (st1 & evs1 & st2 & evs2 & H1 & H2 & H3 & H4 & _).
  - repeat constructor.
  - reflexivity.
  - repeat constructor.
  - exists st1, evs1, st2, evs2. repeat split; assumption.
Defined.

Lemma Shutdown_releases_everything_witness :
  reachable kUnityGfxRendererD3D11 st_ready /\
  exists st',
    OnGraphicsDeviceEvent host_with_shaders kUnityGfxDeviceEventShutdown
      st_ready =
      Some (tt, st',
            EvLog ("OnGraphicsDeviceEvent(Shutdown)." ++ nl)%string ::
            map EvRelease [1; 2; 3; 4; 5; 6; 8; 7]%positive) /\
    s_DeviceType st' = kUnityGfxRendererNull /\
    g_TexturePointer st' = None /\
    resources st' = no_resources.
Proof.
  split; [exact st_ready_reachable|].
  exact (Shutdown_releases_everything kUnityGfxRendererD3D11
           host_with_shaders st_ready st_ready_reachable).
Defined.

End Evaluation.

(** * The real-number reading, continued *)

Section RealReading.

Local Open Scope R_scope.




End RealReading.

(** * The further properties on concrete inputs *)

Section MoreEvaluation.

Import Examples MoreExamples.


Lemma restart_as_fresh_witness :
  reachable kUnityGfxRendererD3D11 st_ready /\
  GetRenderer host_with_shaders = kUnityGfxRendererD3D11 /\
  exists st1 evs1,
    OnGraphicsDeviceEvent host_no_files kUnityGfxDeviceEventShutdown
      st_ready = Some (tt, st1, evs1) /\
    OnGraphicsDeviceEvent host_with_shaders kUnityGfxDeviceEventInitialize
      st1 =
    OnGraphicsDeviceEvent host_with_shaders kUnityGfxDeviceEventInitialize
      (restarted st_ready).
Proof.
  split; [exact st_ready_reachable|]. split; [reflexivity|].
  exact (restart_as_fresh host_no_files host_with_shaders st_ready
           st_ready_reachable eq_refl).
Defined.

Lemma OnRenderEvent_not_ready_witness :
  s_DeviceType st_waiting = kUnityGfxRendererD3D11 /\
  g_D3D11Device st_waiting = Some 100%positive /\
  g_D3D11VertexShader (resources st_waiting) = None /\
  s_UnityStreamingAssetsPath st_waiting = "" /\
  OnRenderEvent host_with_shaders 1 st_waiting =
    Some (tt, st_waiting,
          default_state_calls 100%positive (resources st_waiting)).
Proof.
  split; [reflexivity|]. split; [reflexivity|]. split; [reflexivity|].
  split; [reflexivity|].
  exact (OnRenderEvent_not_ready host_with_shaders 1 st_waiting 100%positive
           eq_refl eq_refl eq_refl eq_refl).
Defined.

Lemma OnRenderEvent_ready_frame_witness :
  s_DeviceType st_ready = kUnityGfxRendererD3D11 /\
  g_D3D11Device st_ready = Some 100%positive /\
  g_D3D11VertexShader (resources st_ready) = Some 3%positive /\
  g_TexturePointer st_ready = Some 7%positive /\
  0 <= fst (GetDesc host_with_shaders 7%positive) /\
  0 <= snd (GetDesc host_with_shaders 7%positive) /\
  OnRenderEvent host_with_shaders 1 st_ready =
    Some (tt, st_ready,
          default_state_calls 100%positive (resources st_ready) ++
          draw_calls 100%positive (resources st_ready)
            (worldMatrix (g_Time st_ready)) verts ++
          [ EvTextureGetDesc 7%positive;
            EvUpdateSubresource (Some 7%positive)
              (Pixels (plasma_image (g_Time st_ready)
                         (fst (GetDesc host_with_shaders 7%positive))
                         (snd (GetDesc host_with_shaders 7%positive))))
              (fst (GetDesc host_with_shaders 7%positive) * 4);
            EvContextRelease ]).
Proof.
  assert (H2 : 0 <= 2) by lia.
  split; [reflexivity|]. split; [reflexivity|]. split; [reflexivity|].
  split; [reflexivity|]. split; [exact H2|]. split; [exact H2|].
  exact (OnRenderEvent_ready_frame host_with_shaders 1 st_ready 100%positive
           3%positive 7%positive eq_refl eq_refl eq_refl eq_refl H2 H2).
Defined.

Lemma st_path_set_path : s_UnityStreamingAssetsPath st_path_set <> "".
Proof. discriminate. Defined.

Lemma Ensure_vertex_shader_rejected_witness :
  g_D3D11VertexShader (resources st_path_set) = None /\
  s_UnityStreamingAssetsPath st_path_set <> "" /\
  g_D3D11Device st_path_set = Some 100%positive /\
  shader_files_loaded host_rejects_vertex_shader
    (s_UnityStreamingAssetsPath st_path_set) = true /\
  device_creates host_rejects_vertex_shader VertexShader
    (shader_bytes host_rejects_vertex_shader
       (vertexShaderPath (s_UnityStreamingAssetsPath st_path_set))) = false /\
  exists st' evs,
    EnsureD3D11ResourcesAreCreated host_rejects_vertex_shader st_path_set =
      Some (true, st', evs) /\
    g_D3D11VertexShader (resources st') = None /\
    g_D3D11InputLayout (resources st') =
      g_D3D11InputLayout (resources st_path_set) /\
    omap creation_call evs =
      [VertexBuffer; ConstantBuffer; VertexShader; PixelShader;
       RasterizerState; DepthStencilState; BlendState] /\
    In ("Failed to create vertex shader." ++ nl)%string (log_lines evs).
Proof.
  split; [reflexivity|]. split; [exact st_path_set_path|].
  split; [reflexivity|]. split; [reflexivity|]. split; [reflexivity|].
  exact (Ensure_vertex_shader_rejected host_rejects_vertex_shader st_path_set
           100%positive eq_refl st_path_set_path eq_refl eq_refl eq_refl).
Defined.

Lemma Ensure_pixel_shader_rejected_witness :
  g_D3D11VertexShader (resources st_path_set) = None /\
  s_UnityStreamingAssetsPath st_path_set <> "" /\
  g_D3D11Device st_path_set = Some 100%positive /\
  shaders_loadable host_rejects_pixel_shader
    (s_UnityStreamingAssetsPath st_path_set) = true /\
  device_creates host_rejects_pixel_shader PixelShader
    (shader_bytes host_rejects_pixel_shader
       (fragmentShaderPath (s_UnityStreamingAssetsPath st_path_set)))
    = false /\
  exists st' evs,
    EnsureD3D11ResourcesAreCreated host_rejects_pixel_shader st_path_set =
      Some (true, st', evs) /\
    g_D3D11VertexShader (resources st') <> None /\
    g_D3D11PixelShader (resources st') = None /\
    log_lines evs = [("Failed to create pixel shader." ++ nl)%string] /\
    ensure_each [host_with_shaders; host_no_files] st' =
      Some (replicate (length [host_with_shaders; host_no_files]) true,
            st', []).
Proof.
  split; [reflexivity|]. split; [exact st_path_set_path|].
  split; [reflexivity|]. split; [reflexivity|]. split; [reflexivity|].
  exact (Ensure_pixel_shader_rejected host_rejects_pixel_shader
           [host_with_shaders; host_no_files] st_path_set 100%positive
           eq_refl st_path_set_path eq_refl eq_refl eq_refl).
Defined.

Lemma Ensure_empty_shader_file_witness :
  g_D3D11VertexShader (resources st_path_set) = None /\
  s_UnityStreamingAssetsPath st_path_set <> "" /\
  g_D3D11Device st_path_set = Some 100%positive /\
  fopen host_empty_vertex_file
    (vertexShaderPath (s_UnityStreamingAssetsPath st_path_set)) = Some [] /\
  LoadFileIntoBuffer host_empty_vertex_file
    (vertexShaderPath (s_UnityStreamingAssetsPath st_path_set)) []
    st_path_set = Some ((true, []), st_path_set, []).
Proof.
  split; [reflexivity|]. split; [exact st_path_set_path|].
  split; [reflexivity|]. split; [reflexivity|].
  exact (proj1 (Ensure_empty_shader_file host_empty_vertex_file st_path_set
                  100%positive eq_refl st_path_set_path eq_refl eq_refl)).
Defined.

Lemma context_references_balanced_witness :
  reachable kUnityGfxRendererD3D11 st_ready /\
  hosted kUnityGfxRendererD3D11 frame_then_shutdown /\
  exists st' evs,
    run frame_then_shutdown st_ready = Some (tt, st', evs) /\
    count takes_context evs = count releases_context evs.
Proof.
  assert (Hh : hosted kUnityGfxRendererD3D11 frame_then_shutdown)
    by repeat constructor.
  split; [exact st_ready_reachable|]. split; [exact Hh|].
  exact (context_references_balanced kUnityGfxRendererD3D11
           frame_then_shutdown st_ready st_ready_reachable Hh).
Defined.



Lemma session_draws_every_frame_witness :
  GetRenderer host_with_shaders = kUnityGfxRendererD3D11 /\
  "/assets" <> "" /\
  shaders_loadable host_with_shaders "/assets" = true /\
  exists st evs,
    run (session host_with_shaders "/assets" (Some 7%positive)
           [0%R; 1%R]) initial_state = Some (tt, st, evs) /\
    count is_draw evs = length [0%R; 1%R] /\
    count is_upload evs = length [0%R; 1%R] /\
    omap creation_call evs =
      match [0%R; 1%R] with [] => [] | _ => all_kinds end.
Proof.
  assert (Hp : "/assets" <> "") by discriminate.
  split; [reflexivity|]. split; [exact Hp|]. split; [reflexivity|].
  exact (session_draws_every_frame host_with_shaders "/assets" 7%positive
           [0%R; 1%R] eq_refl Hp eq_refl).
Defined.

Lemma FillTextureFromCode_keeps_padding_witness :
  0 <= 1 /\
  length [[1; 2; 3; 4]] = length [[5; 6]] /\
  Forall (fun r => length r = (4 * Z.to_nat 1)%nat) [[1; 2; 3; 4]] /\
  Forall (fun p => length p = 2%nat) [[5; 6]] /\
  FillTextureFromCode 0%R 1 (Z.of_nat (length [[1; 2; 3; 4]]))
    (1 * 4 + Z.of_nat 2) (concat (zip_with app [[1; 2; 3; 4]] [[5; 6]])) =
  concat (zip_with app
            (map (fun y => plasma_row y 1 (f_mul 0%R (f_lit 4)))
                 (seqZ 0 (Z.of_nat (length [[1; 2; 3; 4]])))) [[5; 6]]).
Proof.
  assert (H1 : 0 <= 1) by lia.
  assert (Hr : Forall (fun r => length r = (4 * Z.to_nat 1)%nat)
                 [[1; 2; 3; 4]]) by (repeat constructor).
  assert (Hp : Forall (fun p => length p = 2%nat) [[5; 6]])
    by (repeat constructor).
  split; [exact H1|]. split; [reflexivity|]. split; [exact Hr|].
  split; [exact Hp|].
  exact (FillTextureFromCode_keeps_padding 0%R 1 2 [[1; 2; 3; 4]] [[5; 6]]
           H1 eq_refl Hr Hp).
Defined.

Lemma FillTextureFromCode_no_pixels_witness :
  (0 <= 0 \/ 3 <= 0) /\
  FillTextureFromCode 0%R 0 3 8 [9; 9; 9; 9] = [9; 9; 9; 9].
Proof.
  assert (H : 0 <= 0 \/ 3 <= 0) by (left; lia).
  split; [exact H|].
  exact (FillTextureFromCode_no_pixels 0%R 0 3 8 [9; 9; 9; 9] H).
Defined.



End MoreEvaluation.
